(** * Conversation memory and response cache of the AGI framework

  A shallow embedding of [agi/utils/context_manager.py] (the bounded
  conversation store) and [agi/core/inference.py] (response cache,
  running statistics and the generation facade), together with the
  properties of their behaviour.

  Conventions.
  - A Python [str] is a [string]; one [ascii] stands for one character.
  - A Python [int] is a [Z]; [len] returns a [Z].
  - A Python [float] is a binary64 primitive float.
  - A [dict] with string keys is a [gmap string _].
  - [print] is modelled by the list of lines it writes. *)

From Stdlib Require Import ZArith QArith Qround Ascii DecimalString.
From Stdlib Require Import PrimFloat SpecFloat FloatOps.
From stdpp Require Import gmap strings list.

Set Warnings "-inexact-float".

Local Open Scope Z_scope.

(** ** Python built-ins used by the two modules *)

Module Py.

(** The newline character of ["\n".join(...)] and of f-strings. *)
Definition nl : string := String "010"%char EmptyString.

(** [len(s)] for a string. *)
Definition len_str (s : string) : Z := Z.of_nat (String.length s).

(** [len(l)] for a list or deque. *)
Definition len {A} (l : list A) : Z := Z.of_nat (length l).

(** [str(n)] for an integer: decimal digits, with a leading minus sign
    for negative numbers. *)
Definition str_int (n : Z) : string := NilZero.string_of_int (Z.to_int n).

(** [sep.join(parts)]. *)
Definition join (sep : string) (parts : list string) : string :=
  String.concat sep parts.

(** [l[start:]]: a negative [start] counts from the end, and both ends
    are clipped to the list. *)
Definition slice_from {A} (start : Z) (l : list A) : list A :=
  if start <? 0 then drop (Z.to_nat (Z.max 0 (len l + start))) l
  else drop (Z.to_nat start) l.

(** [l[:stop]], with the same treatment of a negative [stop]. *)
Definition slice_to {A} (stop : Z) (l : list A) : list A :=
  if stop <? 0 then take (Z.to_nat (Z.max 0 (len l + stop))) l
  else take (Z.to_nat stop) l.

(** [s[:stop]] on a string, for a non-negative [stop]. *)
Definition str_slice_to (stop : nat) (s : string) : string :=
  String.substring 0 stop s.

(** [str.isspace] on one character (code points below 256). *)
Definition isspace (c : ascii) : bool :=
  let n := nat_of_ascii c in
  ((9 <=? n) && (n <=? 13) || (28 <=? n) && (n <=? 32)
   || (n =? 133) || (n =? 160))%nat.

(** [s.split()]: the maximal runs of non-space characters. [word] is the
    run being read. *)
Fixpoint split_go (word : string) (s : string) : list string :=
  match s with
  | EmptyString =>
      match word with EmptyString => [] | _ => [word] end
  | String c s' =>
      if isspace c then
        match word with
        | EmptyString => split_go EmptyString s'
        | _ => word :: split_go EmptyString s'
        end
      else split_go (word +:+ String c EmptyString) s'
  end.

Definition split (s : string) : list string := split_go EmptyString s.

(** [min(l, key=key)] as a position: CPython keeps the first item and
    replaces it only by an item whose key is strictly smaller, so the
    result is the first minimal item. [best_i] and [best_k] are the
    position and key kept so far, [i] the position of the head of [l]. *)
Fixpoint min_scan {A} (key : A → Z) (best_i : nat) (best_k : Z)
    (i : nat) (l : list A) : nat :=
  match l with
  | [] => best_i
  | x :: l' =>
      if key x <? best_k then min_scan key i (key x) (S i) l'
      else min_scan key best_i best_k (S i) l'
  end.

(** [None] stands for the [ValueError] of [min] on an empty sequence. *)
Definition min_index {A} (key : A → Z) (l : list A) : option nat :=
  match l with
  | [] => None
  | x :: l' => Some (min_scan key 0%nat (key x) 1%nat l')
  end.

End Py.

(** ** [collections.deque] with a [maxlen] *)

Module Deque.

Record deque (A : Type) := Deque { items : list A; maxlen : nat }.
Arguments Deque {A} _ _.
Arguments items {A} _.
Arguments maxlen {A} _.

Inductive exn := ValueError (msg : string).

(** [deque(maxlen=n)]: a negative [n] raises [ValueError]. *)
Definition new {A} (n : Z) : exn + deque A :=
  if n <? 0 then inl (ValueError "maxlen must be non-negative")
  else inr (Deque [] (Z.to_nat n)).

Definition len {A} (d : deque A) : Z := Py.len (items d).

(** [d.append(x)]: the item is added on the right; when that makes the
    deque longer than [maxlen], one item is dropped on the left. *)
Definition append {A} (x : A) (d : deque A) : deque A :=
  let l := items d ++ [x] in
  Deque (if (maxlen d <? length l)%nat then drop 1 l else l) (maxlen d).

(** [d.popleft()] on a non-empty deque; [None] stands for [IndexError]. *)
Definition popleft {A} (d : deque A) : option (A * deque A) :=
  match items d with
  | [] => None
  | x :: l => Some (x, Deque l (maxlen d))
  end.

(** [d.clear()]. *)
Definition clear {A} (d : deque A) : deque A := Deque [] (maxlen d).

(** [d.remove(x)] where [x] is the item found at position [i]. The items
    are distinct objects compared by identity, so the first occurrence of
    [x] is position [i] itself. *)
Definition remove_at {A} (i : nat) (d : deque A) : deque A :=
  Deque (delete i (items d)) (maxlen d).

End Deque.

Export Deque (deque, Deque, items, maxlen).

(** ** [agi/utils/context_manager.py] *)

Section ContextManager.

(** The values stored in the metadata dictionary of a turn. *)
Context {Any : Type}.

(** *** [ConversationTurn] *)

Record ConversationTurn := mkTurn {
  role : string;
  content : string;
  metadata : gmap string Any;
  timestamp : string
}.

(** [ConversationTurn.__init__]; [now] is the reading of
    [datetime.now().isoformat()], and [metadata or {}] turns an omitted
    (or empty) dictionary into the empty one. *)
Definition new_turn (role content : string)
    (metadata : option (gmap string Any)) (now : string)
    : ConversationTurn :=
  mkTurn role content (default ∅ metadata) now.

(** *** [ContextManager]

    The three entries of the [self.metadata] dictionary are the fields
    [created_at], [total_turns] and [summarization_count]. *)

Record ContextManager := mkManager {
  max_context_length : Z;
  max_turns : Z;
  summarization_threshold : Z;
  conversation_history : deque ConversationTurn;
  context_summary : string;
  created_at : string;
  total_turns : Z;
  summarization_count : Z
}.

Definition set_history (h : deque ConversationTurn) (self : ContextManager)
    : ContextManager :=
  mkManager (max_context_length self) (max_turns self)
    (summarization_threshold self) h (context_summary self)
    (created_at self) (total_turns self) (summarization_count self).

Definition set_summary (s : string) (self : ContextManager)
    : ContextManager :=
  mkManager (max_context_length self) (max_turns self)
    (summarization_threshold self) (conversation_history self) s
    (created_at self) (total_turns self) (summarization_count self).

Definition set_total_turns (n : Z) (self : ContextManager)
    : ContextManager :=
  mkManager (max_context_length self) (max_turns self)
    (summarization_threshold self) (conversation_history self)
    (context_summary self) (created_at self) n (summarization_count self).

Definition set_summarization_count (n : Z) (self : ContextManager)
    : ContextManager :=
  mkManager (max_context_length self) (max_turns self)
    (summarization_threshold self) (conversation_history self)
    (context_summary self) (created_at self) (total_turns self) n.

(** The turns of the buffer, oldest first. *)
Definition buffer (self : ContextManager) : list ConversationTurn :=
  items (conversation_history self).

(** [ContextManager.__init__]. The only step that can fail is the
    construction of the bounded deque. *)
Definition init (max_context_length max_turns summarization_threshold : Z)
    (now : string) : Deque.exn + ContextManager :=
  match Deque.new max_turns with
  | inl e => inl e
  | inr h =>
      inr (mkManager max_context_length max_turns summarization_threshold
             h "" now 0 0)
  end.

(** The loop of [_summarize_context] over the turns to summarise: a
    bullet is appended for each turn whose content is longer than 50
    characters. *)
Definition summary_bullet (turn : ConversationTurn) : string :=
  "- " +:+ role turn +:+ ": "
    +:+ Py.str_slice_to 50 (content turn) +:+ "...".

Definition add_key_points (summary_parts : list string)
    (turns_to_summarize : list ConversationTurn) : list string :=
  fold_left
    (λ parts turn,
       if 50 <? Py.len_str (content turn)
       then parts ++ [summary_bullet turn] else parts)
    turns_to_summarize summary_parts.

(** [_summarize_context]: the new state and the printed lines. *)
Definition _summarize_context (self : ContextManager)
    : ContextManager * list string :=
  if Deque.len (conversation_history self) <? summarization_threshold self
  then (self, [])
  else
    let num_to_summarize := Deque.len (conversation_history self) / 2 in
    let turns_to_summarize :=
      Py.slice_to num_to_summarize (items (conversation_history self)) in
    let summary_parts :=
      [ "Summary of " +:+ Py.str_int num_to_summarize
          +:+ " conversation turns:";
        "Key topics discussed:" ] in
    let summary_parts := add_key_points summary_parts turns_to_summarize in
    let self := set_summary (Py.join Py.nl summary_parts) self in
    let self :=
      set_summarization_count (summarization_count self + 1) self in
    (self,
     [ "Context summarized (" +:+ Py.str_int num_to_summarize
         +:+ " turns)" ]).

(** [add_turn]. *)
Definition add_turn (self : ContextManager) (role content : string)
    (metadata : option (gmap string Any)) (now : string)
    : ContextManager * list string :=
  let turn := new_turn role content metadata now in
  let self :=
    set_history (Deque.append turn (conversation_history self)) self in
  let self := set_total_turns (total_turns self + 1) self in
  if summarization_threshold self <=? Deque.len (conversation_history self)
  then _summarize_context self
  else (self, []).

(** [get_context]. *)
Definition get_context (self : ContextManager) (num_turns : option Z)
    (include_summary : bool) : string :=
  let context_parts :=
    if include_summary && negb (String.eqb (context_summary self) "")
    then [ "[Previous Context Summary]" +:+ Py.nl
             +:+ context_summary self +:+ Py.nl ]
    else [] in
  let turns_to_include := items (conversation_history self) in
  let turns_to_include :=
    match num_turns with
    | Some n => Py.slice_from (- n) turns_to_include
    | None => turns_to_include
    end in
  let context_parts :=
    fold_left
      (λ parts turn, parts ++ [role turn +:+ ": " +:+ content turn])
      turns_to_include context_parts in
  Py.join Py.nl context_parts.

(** [clear_history]. *)
Definition clear_history (self : ContextManager)
    : ContextManager * list string :=
  let num_turns := Deque.len (conversation_history self) in
  let self := set_history (Deque.clear (conversation_history self)) self in
  let self := set_summary "" self in
  (self, [ "Cleared " +:+ Py.str_int num_turns +:+ " conversation turns" ]).

(** [prune_context]. *)
Definition prune_context (self : ContextManager) (strategy : string)
    : ContextManager * list string :=
  if String.eqb strategy "oldest" then
    if 0 <? Deque.len (conversation_history self) then
      match Deque.popleft (conversation_history self) with
      | Some (removed, h) =>
          (set_history h self, [ "Removed oldest turn: " +:+ role removed ])
      | None => (self, [])
      end
    else (self, [])
  else if String.eqb strategy "least_relevant" then
    if 0 <? Deque.len (conversation_history self) then
      match Py.min_index (λ t, Py.len_str (content t))
              (items (conversation_history self)) with
      | Some i =>
          match items (conversation_history self) !! i with
          | Some min_turn =>
              (set_history (Deque.remove_at i (conversation_history self))
                 self,
               [ "Removed least relevant turn: " +:+ role min_turn ])
          | None => (self, [])
          end
      | None => (self, [])
      end
    else (self, [])
  else (self, []).

(** [get_context_length]. *)
Definition get_context_length (self : ContextManager) : Z :=
  let total_chars :=
    fold_left (λ acc turn, acc + Py.len_str (content turn))
      (items (conversation_history self)) 0 in
  total_chars / 4.

End ContextManager.

Arguments ConversationTurn : clear implicits.
Arguments ContextManager : clear implicits.

(** ** Runs of the conversation store *)

Section ContextManagerRuns.

Context {Any : Type}.

Abbreviation Turn := (ConversationTurn Any).
Abbreviation Manager := (ContextManager Any).

(** The arguments of one [add_turn] call, with the clock reading taken
    by the constructor of the turn. *)
Definition call : Type :=
  string * string * option (gmap string Any) * string.

Definition turn_of (c : call) : Turn :=
  let '(role, content, metadata, now) := c in
  new_turn role content metadata now.

Definition add_call (self : Manager) (c : call) : Manager :=
  let '(role, content, metadata, now) := c in
  fst (add_turn self role content metadata now).

(** A sequence of [add_turn] calls. *)
Definition add_turns (self : Manager) (calls : list call) : Manager :=
  fold_left add_call calls self.

(** The operations that change a store. *)
Inductive op :=
| AddTurn (c : call)
| ClearHistory
| PruneContext (strategy : string).

Definition apply_op (self : Manager) (o : op) : Manager :=
  match o with
  | AddTurn c => add_call self c
  | ClearHistory => fst (clear_history self)
  | PruneContext strategy => fst (prune_context self strategy)
  end.

Definition run (self : Manager) (ops : list op) : Manager :=
  fold_left apply_op ops self.

(** The last [n] items of a list. *)
Definition last_n {A} (n : nat) (l : list A) : list A :=
  drop (length l - n) l.

(** The digest of a buffer in the words of the specification: two header
    lines, then one bullet for each turn of the first half (floor) of the
    buffer whose content is longer than 50 characters. *)
Definition digest (buf : list Turn) : string :=
  let n := Py.len buf / 2 in
  Py.join Py.nl
    ([ "Summary of " +:+ Py.str_int n +:+ " conversation turns:";
       "Key topics discussed:" ]
     ++ (summary_bullet <$>
           filter (λ t, 50 < Py.len_str (content t))
             (take (length buf / 2) buf))).

(** The line of [get_context] for one turn. *)
Definition turn_line (t : Turn) : string := role t +:+ ": " +:+ content t.

(** The summary block of [get_context]. *)
Definition summary_block (self : Manager) (include_summary : bool)
    : list string :=
  if include_summary && negb (String.eqb (context_summary self) "")
  then [ "[Previous Context Summary]" +:+ Py.nl
           +:+ context_summary self +:+ Py.nl ]
  else [].

(** A store whose buffer respects the capacity of its deque. *)
Definition within_capacity (self : Manager) : Prop :=
  (length (buffer self) ≤ maxlen (conversation_history self))%nat.

(** [first_min_at key l i k]: position [i] of [l] holds an item of key
    [k], every earlier item has a strictly larger key and no later item
    has a smaller one. *)
Definition first_min_at {A} (key : A → Z) (l : list A) (i : nat) (k : Z)
    : Prop :=
  ∃ pre t post,
    l = pre ++ t :: post ∧ length pre = i ∧ key t = k ∧
    Forall (λ x, k < key x) pre ∧ Forall (λ x, k ≤ key x) post.

(** What every operation preserves in a store whose threshold lies above
    its capacity. *)
Definition never_summarized (cap : nat) (th : Z) (self : Manager)
  : Prop :=
  maxlen (conversation_history self) = cap ∧
  (length (buffer self) ≤ cap)%nat ∧
  summarization_threshold self = th ∧
  summarization_count self = 0 ∧
  context_summary self = "".

End ContextManagerRuns.


(** ** Python floats *)

Module PyFloat.

(** [float(n)] for an integer, as in the mixed arithmetic [x * n]: the
    nearest binary64 value, ties to even. *)
Definition of_int (n : Z) : float :=
  SF2Prim (binary_normalize prec emax n 0 false).

(** Truth value of a float: only the two zeros are false. *)
Definition truthy (x : float) : bool := negb (PrimFloat.eqb x 0).

(** The value of a finite non-zero float, as sign, mantissa and binary
    exponent: [x = ± m * 2 ^ e]. *)
Definition decode (x : float) : option (bool * Z * Z) :=
  match Prim2SF x with
  | S754_finite s m e => Some (s, Zpos m, e)
  | _ => None
  end.

(** The exact value of a finite float as a rational. *)
Definition to_Q (x : float) : Q :=
  match decode x with
  | Some (s, m, e) =>
      let v := Qred (inject_Z m * Qpower 2 e) in
      if s then Qopp v else v
  | None => 0%Q
  end.

(** *** [repr] of a float

    [repr] prints the shortest decimal string that reads back as the same
    float. The reals that read back as [m * 2 ^ e] lie between the
    midpoints to its two neighbours, the midpoints being included when [m]
    is even. *)

Section Shortest.

Variables (m e : Z).

Definition value : Q := Qred (inject_Z m * Qpower 2 e).

Definition upper : Q := Qred (inject_Z (2 * m + 1) * Qpower 2 (e - 1)).

Definition lower : Q :=
  if (m =? 2 ^ 52) && (-1074 <? e)
  then Qred (inject_Z (4 * m - 1) * Qpower 2 (e - 2))
  else Qred (inject_Z (2 * m - 1) * Qpower 2 (e - 1)).

Definition reads_back (q : Q) : bool :=
  if Z.even m then Qle_bool lower q && Qle_bool q upper
  else negb (Qle_bool q lower) && negb (Qle_bool upper q).

(** The position of the decimal point: the least [d] from [start] on
    with [value < 10 ^ d]. *)
Fixpoint decimal_point (fuel : nat) (d : Z) : Z :=
  match fuel with
  | O => d
  | S fuel' =>
      if Qle_bool (Qpower 10 d) value then decimal_point fuel' (d + 1)
      else d
  end.

(** The decimal with [k] digits below or above the value that reads back,
    the nearer one if both do, as an integer [n] and a power of ten [p]:
    [n * 10 ^ p]. *)
Definition candidate (d : Z) (k : Z) : option (Z * Z) :=
  let p := d - k in
  let scale := Qpower 10 p in
  let a := Qfloor (value / scale) in
  let below := (inject_Z a * scale)%Q in
  let above := (inject_Z (a + 1) * scale)%Q in
  match reads_back below, reads_back above with
  | true, true =>
      match (value - below ?= above - value)%Q with
      | Lt => Some (a, p)
      | Gt => Some (a + 1, p)
      | Eq => Some (if Z.even a then a else a + 1, p)
      end
  | true, false => Some (a, p)
  | false, true => Some (a + 1, p)
  | false, false => None
  end.

(** The first number of digits, from [k] on, that has a candidate. *)
Fixpoint shortest_from (fuel : nat) (d : Z) (k : Z) : Z * Z :=
  match fuel with
  | O => (m, 0)
  | S fuel' =>
      match candidate d k with
      | Some np => np
      | None => shortest_from fuel' d (k + 1)
      end
  end.

(** Trailing zeros move into the power of ten. *)
Fixpoint strip_zeros (fuel : nat) (n p : Z) : Z * Z :=
  match fuel with
  | O => (n, p)
  | S fuel' =>
      if (n mod 10 =? 0) && negb (n =? 0)
      then strip_zeros fuel' (n / 10) (p + 1)
      else (n, p)
  end.

(** The digits of the shortest decimal and the position [decpt] of the
    decimal point after the leading digits: [0.d1d2... * 10 ^ decpt]. *)
Definition shortest : string * Z :=
  let d := decimal_point 640 (-324) in
  let '(n, p) := shortest_from 17 d 1 in
  let '(n, p) := strip_zeros 20 n p in
  let digits := Py.str_int n in
  (digits, Py.len_str digits + p).

End Shortest.

Fixpoint zeros (n : nat) : string :=
  match n with O => EmptyString | S n' => String "0"%char (zeros n') end.

(** The layout of [repr]: exponent notation when [decpt] is at most -4 or
    above 16, with an exponent of at least two digits; otherwise positional
    notation, always with a decimal point. *)
Definition layout (digits : string) (decpt : Z) : string :=
  let ndigits := Py.len_str digits in
  if (decpt <=? -4) || (16 <? decpt) then
    let exp := decpt - 1 in
    let mantissa :=
      match digits with
      | String c EmptyString => digits
      | String c rest => String c ("." +:+ rest)
      | EmptyString => digits
      end in
    let exp_digits := Py.str_int (Z.abs exp) in
    mantissa +:+ "e" +:+ (if exp <? 0 then "-" else "+")
      +:+ (if Z.abs exp <? 10 then "0" else "") +:+ exp_digits
  else if decpt <=? 0 then
    "0." +:+ zeros (Z.to_nat (- decpt)) +:+ digits
  else if ndigits <=? decpt then
    digits +:+ zeros (Z.to_nat (decpt - ndigits)) +:+ ".0"
  else
    String.substring 0 (Z.to_nat decpt) digits +:+ "."
      +:+ String.substring (Z.to_nat decpt)
            (Z.to_nat (ndigits - decpt)) digits.

(** [str(x)] and [repr(x)] of a float, also what an f-string prints. *)
Definition str (x : float) : string :=
  match Prim2SF x with
  | S754_nan => "nan"
  | S754_infinity s => if s then "-inf" else "inf"
  | S754_zero s => if s then "-0.0" else "0.0"
  | S754_finite s m e =>
      let '(digits, decpt) := shortest (Zpos m) e in
      (if s then "-" else "") +:+ layout digits decpt
  end.

End PyFloat.

(** ** [agi/core/inference.py] *)

(** *** [InferenceConfig] *)

Module InferenceConfig.

Record t := mk {
  temperature : float;
  top_p : float;
  top_k : Z;
  max_length : Z;
  repetition_penalty : float;
  num_return_sequences : Z;
  do_sample : bool
}.

(** [InferenceConfig()] with the default arguments. *)
Definition default : t := mk 0.7 0.9 50 512 1.0 1 true.

End InferenceConfig.

(** *** The statistics dictionary and [_update_stats]

    The latency arithmetic is written over an interface with two
    instances: binary64, which is what the program runs, and exact
    rationals, which is what its running-mean formula computes without
    rounding. *)

Class Number (F : Type) := {
  of_int : Z → F;
  add : F → F → F;
  sub : F → F → F;
  mul : F → F → F;
  div : F → F → F
}.

#[export] Instance float_number : Number float := {
  of_int := PyFloat.of_int;
  add := PrimFloat.add;
  sub := PrimFloat.sub;
  mul := PrimFloat.mul;
  div := PrimFloat.div
}.

#[export] Instance Q_number : Number Q := {
  of_int := inject_Z;
  add := Qplus;
  sub := Qminus;
  mul := Qmult;
  div := Qdiv
}.

Record InferenceStats (F : Type) := mkStats {
  total_requests : Z;
  total_tokens_generated : Z;
  average_latency : F
}.
Arguments mkStats {F} _ _ _.
Arguments total_requests {F} _.
Arguments total_tokens_generated {F} _.
Arguments average_latency {F} _.

(** The dictionary built by [__init__] and [reset_statistics]. *)
Definition initial_stats {F} `{Number F} : InferenceStats F :=
  mkStats 0 0 (of_int 0).

(** [_update_stats]. In [old_avg * (n - 1)] and in the division by [n]
    the integer is converted to the type of the latency. *)
Definition _update_stats {F} `{Number F} (stats : InferenceStats F)
    (generated_text : string) (latency : F) : InferenceStats F :=
  let total_requests := total_requests stats + 1 in
  let total_tokens_generated :=
    total_tokens_generated stats + Py.len (Py.split generated_text) in
  let n := total_requests in
  let old_avg := average_latency stats in
  mkStats total_requests total_tokens_generated
    (div (add (mul old_avg (of_int (n - 1))) latency) (of_int n)).

(** A run of statistics updates, one per non-cached generation, from the
    initial dictionary. *)
Definition record_all {F} `{Number F} (gens : list (string * F))
    : InferenceStats F :=
  fold_left (λ stats g, _update_stats stats (fst g) (snd g)) gens
    initial_stats.

(** The number of words of the generated texts, and the full
    recomputation of the mean latency: the sum of the latencies, added in
    order starting from zero, divided by their number. *)
Definition total_words {F} (gens : list (string * F)) : Z :=
  fold_left (λ acc g, acc + Py.len (Py.split (fst g))) gens 0.

Definition total_latency {F} `{Number F} (gens : list (string * F)) : F :=
  fold_left (λ acc g, add acc (snd g)) gens (of_int 0).

Definition mean_latency {F} `{Number F} (gens : list (string * F)) : F :=
  div (total_latency gens) (of_int (Py.len gens)).

(** *** Cache keys and defaults *)

(** How an f-string prints an optional argument. *)
Definition fmt_int (x : option Z) : string :=
  match x with Some n => Py.str_int n | None => "None" end.

Definition fmt_float (x : option float) : string :=
  match x with Some f => PyFloat.str f | None => "None" end.

(** [f"{prompt}_{max_length}_{temperature}"], on the arguments as passed. *)
Definition cache_key (prompt : string) (max_length : option Z)
    (temperature : option float) : string :=
  prompt +:+ "_" +:+ fmt_int max_length +:+ "_" +:+ fmt_float temperature.

(** [max_length or default]: [None] and [0] are false. *)
Definition int_or (x : option Z) (default : Z) : Z :=
  match x with
  | Some n => if n =? 0 then default else n
  | None => default
  end.

(** [temperature or default]: [None] and the zeros are false. *)
Definition float_or (x : option float) (default : float) : float :=
  match x with
  | Some f => if PyFloat.truthy f then f else default
  | None => default
  end.

(** *** [InferenceEngine] *)

Section Engine.

(** The external model object, the values of extra keyword arguments and
    the exceptions the model can raise. *)
Context {Model Any Exn : Type}.

(** [model.generate(prompt, max_length=..., temperature=..., **kwargs)]:
    an exception or the generated text, and the model after the call. *)
Variable model_generate :
  Model → string → Z → float → gmap string Any → (Exn + string) * Model.

(** The successive readings of [time.time()]. *)
Variable clock : nat → float.

Record InferenceEngine := mkEngine {
  model : Model;
  config : InferenceConfig.t;
  inference_stats : InferenceStats float;
  _response_cache : gmap string string
}.

(** [InferenceEngine.__init__]; [config or InferenceConfig()]. *)
Definition new_engine (model : Model) (config : option InferenceConfig.t)
    : InferenceEngine :=
  mkEngine model (default InferenceConfig.default config) initial_stats ∅.

(** One invocation of the external model, as the model receives it. *)
Record ModelCall := mkCall {
  call_prompt : string;
  call_max_length : Z;
  call_temperature : float;
  call_kwargs : gmap string Any
}.

(** The engine together with what surrounds it: the position of the clock,
    the lines printed and the invocations the model has received. *)
Record World := mkWorld {
  engine : InferenceEngine;
  ticks : nat;
  stdout : list string;
  calls : list ModelCall
}.

(** The values with which [generate] calls the model. *)
Definition resolved_max_length (w : World) (max_length : option Z) : Z :=
  int_or max_length (InferenceConfig.max_length (config (engine w))).

Definition resolved_temperature (w : World)
    (temperature : option float) : float :=
  float_or temperature (InferenceConfig.temperature (config (engine w))).

(** Computations that read and change the world and may raise. *)
Definition Eff (A : Type) : Type := World → (Exn + A) * World.

#[local] Instance eff_ret : MRet Eff := λ A x w, (inr x, w).

#[local] Instance eff_bind : MBind Eff := λ A B f m w,
  match m w with
  | (inl e, w') => (inl e, w')
  | (inr x, w') => f x w'
  end.

Definition get_self : Eff InferenceEngine := λ w, (inr (engine w), w).

Definition set_self (self : InferenceEngine) : Eff unit := λ w,
  (inr (), mkWorld self (ticks w) (stdout w) (calls w)).

(** [time.time()]. *)
Definition time_time : Eff float := λ w,
  (inr (clock (ticks w)),
   mkWorld (engine w) (S (ticks w)) (stdout w) (calls w)).

(** [print(line)]. *)
Definition print (line : string) : Eff unit := λ w,
  (inr (), mkWorld (engine w) (ticks w) (stdout w ++ [line]) (calls w)).

(** [self.model.generate(...)]: the call is recorded, the model moves to
    its next state, and an exception of the model propagates. *)
Definition call_model (prompt : string) (max_length : Z)
    (temperature : float) (kwargs : gmap string Any) : Eff string := λ w,
  let self := engine w in
  let '(result, model') :=
    model_generate (model self) prompt max_length temperature kwargs in
  (result,
   mkWorld
     (mkEngine model' (config self) (inference_stats self)
        (_response_cache self))
     (ticks w) (stdout w)
     (calls w ++ [mkCall prompt max_length temperature kwargs])).

(** [self._update_stats(generated_text, latency)]. *)
Definition update_stats (generated_text : string) (latency : float)
    : Eff unit :=
  self ← get_self;
  set_self
    (mkEngine (model self) (config self)
       (_update_stats (inference_stats self) generated_text latency)
       (_response_cache self)).

(** [self._response_cache[cache_key] = generated_text]. *)
Definition cache_store (cache_key generated_text : string) : Eff unit :=
  self ← get_self;
  set_self
    (mkEngine (model self) (config self) (inference_stats self)
       (<[cache_key := generated_text]> (_response_cache self))).

(** The entry that [generate] returns without calling the model:
    [use_cache and cache_key in self._response_cache]. *)
Definition cache_hit (self : InferenceEngine) (use_cache : bool)
    (cache_key : string) : option string :=
  if use_cache then _response_cache self !! cache_key else None.

(** [generate]. *)
Definition generate (prompt : string) (max_length : option Z)
    (temperature : option float) (use_cache : bool)
    (kwargs : gmap string Any) : Eff string :=
  let cache_key := cache_key prompt max_length temperature in
  self ← get_self;
  match cache_hit self use_cache cache_key with
  | Some cached => mret cached
  | None =>
      start_time ← time_time;
      let max_length :=
        int_or max_length (InferenceConfig.max_length (config self)) in
      let temperature :=
        float_or temperature (InferenceConfig.temperature (config self)) in
      generated_text ← call_model prompt max_length temperature kwargs;
      end_time ← time_time;
      let latency := sub end_time start_time in
      update_stats generated_text latency;;
      (if use_cache then cache_store cache_key generated_text
       else mret ());;
      mret generated_text
  end.

(** The loop of [batch_generate]; [idx] counts the prompts already done,
    [total] is [len(prompts)] and [results] the texts collected so far. *)
Fixpoint batch_loop (idx total : Z) (prompts : list string)
    (max_length : option Z) (temperature : option float)
    (kwargs : gmap string Any) (results : list string)
    : Eff (list string) :=
  match prompts with
  | [] => mret results
  | prompt :: prompts' =>
      result ← generate prompt max_length temperature true kwargs;
      let results := results ++ [result] in
      (if (idx + 1) mod 10 =? 0
       then print ("  Processed " +:+ Py.str_int (idx + 1) +:+ "/"
                     +:+ Py.str_int total +:+ " prompts")
       else mret ());;
      batch_loop (idx + 1) total prompts' max_length temperature kwargs
        results
  end.

(** [batch_generate]. *)
Definition batch_generate (prompts : list string) (max_length : option Z)
    (temperature : option float) (kwargs : gmap string Any)
    : Eff (list string) :=
  print ("Processing batch of " +:+ Py.str_int (Py.len prompts)
           +:+ " prompts...");;
  results ← batch_loop 0 (Py.len prompts) prompts max_length temperature
              kwargs [];
  print "Batch processing complete!";;
  mret results.

(** [clear_cache]. *)
Definition clear_cache : Eff unit :=
  self ← get_self;
  let cache_size := Z.of_nat (size (_response_cache self)) in
  set_self
    (mkEngine (model self) (config self) (inference_stats self) ∅);;
  print ("Cache cleared (" +:+ Py.str_int cache_size
           +:+ " entries removed)").

(** [reset_statistics]. *)
Definition reset_statistics : Eff unit :=
  self ← get_self;
  set_self
    (mkEngine (model self) (config self) initial_stats
       (_response_cache self));;
  print "Statistics reset".

End Engine.

Arguments InferenceEngine : clear implicits.
Arguments ModelCall : clear implicits.
Arguments World : clear implicits.

(** *** A small external model for concrete runs

    The model echoes its prompt, raises on the prompt [boom], and keeps no
    state. *)
Definition echo_model (m : unit) (prompt : string) (max_length : Z)
    (temperature : float) (kwargs : gmap string Z)
    : (string + string) * unit :=
  if String.eqb prompt "boom" then (inl "model failure", m)
  else (inr ("echo of " +:+ prompt), m).

(** A clock that advances by a quarter of a second per reading. *)
Definition quarter_clock (n : nat) : float :=
  PrimFloat.mul 0.25 (PyFloat.of_int (Z.of_nat n)).

(** A fresh engine with the default configuration, before any call. *)
Definition fresh_world : World unit Z :=
  mkWorld (new_engine () None) 0 [] [].

From Stdlib Require DecimalPos DecimalZ.

(** ** Further operations of the conversation store *)

(** The errors of integer arithmetic. *)
Inductive arith_exn := ZeroDivisionError | OverflowError.

Module PyArith.

(** [a / b] on integers: the quotient rounded once to the nearest float,
    ties to even. The quotient is computed with at least 56 bits and one
    more bit that records a non-zero remainder, and that number is rounded.
    A zero divisor and a result beyond the largest float are errors. *)
Definition truediv (a b : Z) : arith_exn + float :=
  if b =? 0 then inl ZeroDivisionError
  else
    let negate := xorb (a <? 0) (b <? 0) in
    if a =? 0 then inr (if negate then neg_zero else zero)
    else
      let x := Z.abs a in
      let y := Z.abs b in
      let k := Z.max 0 (Z.log2 y + 56 - Z.log2 x) in
      let q := (x * 2 ^ k) / y in
      let sticky := if (x * 2 ^ k) mod y =? 0 then 0 else 1 in
      let r :=
        SF2Prim (binary_normalize prec emax (2 * q + sticky) (- (k + 1))
                   false) in
      if is_infinity r then inl OverflowError
      else inr (if negate then PrimFloat.opp r else r).

(** [float(n)] as in [n * x] for a float [x]: an integer beyond the
    largest float is an error. *)
Definition to_float (n : Z) : arith_exn + float :=
  let r := PyFloat.of_int n in
  if is_infinity r then inl OverflowError else inr r.

(** [n > x] for an integer and a float: the two values are compared as
    they are, without rounding the integer. *)
Definition int_gt_float (n : Z) (x : float) : bool :=
  match Prim2SF x with
  | S754_nan => false
  | S754_infinity negative => negative
  | S754_zero _ => 0 <? n
  | S754_finite _ _ _ => negb (Qle_bool (inject_Z n) (PyFloat.to_Q x))
  end.

End PyArith.

(** The dictionary returned by [ContextManager.get_statistics]. *)
Module Statistics.

Record t := mk {
  total_turns : Z;
  current_turns : Z;
  context_length_tokens : Z;
  context_length_percentage : float;
  summarization_count : Z;
  has_summary : bool
}.

End Statistics.

Section ContextManagerMore.

Context {Any : Type}.

(** The number of [add_turn] calls among a sequence of operations. *)
Definition is_add_turn (o : @op Any) : bool :=
  match o with AddTurn _ => true | _ => false end.

Definition adds (ops : list (@op Any)) : Z :=
  Py.len (List.filter is_add_turn ops).

(** [get_last_turn]: [self.conversation_history[-1]] without a role, and
    otherwise the first turn of that role met when the buffer is read from
    its newest turn backwards. *)
Definition get_last_turn (self : ContextManager Any) (role' : option string)
    : option (ConversationTurn Any) :=
  match items (conversation_history self) with
  | [] => None
  | _ =>
      match role' with
      | None => last (items (conversation_history self))
      | Some r =>
          List.find (λ turn, String.eqb (role turn) r)
            (rev (items (conversation_history self)))
      end
  end.

(** What every operation keeps true of a store of capacity [cap]. *)
Definition store_ok (cap : nat) (self : ContextManager Any) : Prop :=
  maxlen (conversation_history self) = cap ∧
  (length (buffer self) ≤ cap)%nat ∧
  Py.len (buffer self) ≤ total_turns self ∧
  0 ≤ summarization_count self ≤ total_turns self.

(** [get_statistics]. The only step that can fail is the division by
    [max_context_length]. *)
Definition get_statistics (self : ContextManager Any)
    : arith_exn + Statistics.t :=
  match PyArith.truediv (get_context_length self)
          (max_context_length self) with
  | inl e => inl e
  | inr ratio =>
      inr (Statistics.mk (total_turns self)
             (Deque.len (conversation_history self))
             (get_context_length self)
             (PrimFloat.mul ratio (PyFloat.of_int 100))
             (summarization_count self)
             (negb (String.eqb (context_summary self) "")))
  end.

(** [is_context_full]: [current_length > max_context_length * 0.9]. *)
Definition is_context_full (self : ContextManager Any) : arith_exn + bool :=
  let current_length := get_context_length self in
  match PyArith.to_float (max_context_length self) with
  | inl e => inl e
  | inr limit =>
      inr (PyArith.int_gt_float current_length (PrimFloat.mul limit 0.9))
  end.

(** The metadata values that are strings. *)
Variable of_str : string → Any.

(** [add_system_message]. *)
Definition add_system_message (self : ContextManager Any)
    (message now : string) : ContextManager Any * list string :=
  add_turn self "system" message
    (Some {[ "type" := of_str "system_instruction" ]}) now.

End ContextManagerMore.

(** ** Characters of a cache key *)

(** [no_underscore s]: the string [s] contains no underscore. *)
Fixpoint no_underscore (s : string) : bool :=
  match s with
  | EmptyString => true
  | String c s' => negb (Ascii.eqb c "_") && no_underscore s'
  end.

(** ** Further operations of the inference engine *)

(** One entry of the list returned by [interactive_generate]: the
    dictionary with the keys [turn], [prompt], [response] and
    [timestamp]. *)
Module InteractiveTurn.

Record t := mk {
  turn : Z;
  prompt : string;
  response : string;
  timestamp : string
}.

End InteractiveTurn.

(** The dictionary returned by [InferenceEngine.get_statistics];
    [tokens_per_request] is the integer 0 or a float. *)
Module EngineStatistics.

Record t := mk {
  total_requests : Z;
  total_tokens_generated : Z;
  average_latency : float;
  cache_size : Z;
  tokens_per_request : Z + float
}.

End EngineStatistics.

(** The entries of [c] are entries of [c']. *)
Definition entries_kept (c c' : gmap string string) : Prop :=
  ∀ k v, c !! k = Some v → c' !! k = Some v.

(** [chained turn current conversation]: the entries are numbered from
    [turn + 1] on, the first prompt is [current], and each next prompt is
    the previous prompt, a space and the previous response. *)
Fixpoint chained (turn : Z) (current : string)
    (conversation : list InteractiveTurn.t) : Prop :=
  match conversation with
  | [] => True
  | entry :: rest =>
      InteractiveTurn.turn entry = turn + 1 ∧
      InteractiveTurn.prompt entry = current ∧
      chained (turn + 1)
        (current +:+ " " +:+ InteractiveTurn.response entry) rest
  end.

Section EngineMore.

Context {Model Any Exn : Type}.
Variable model_generate :
  Model → string → Z → float → gmap string Any → (Exn + string) * Model.
Variable clock : nat → float.

(** The successive readings of [datetime.now().isoformat()], numbered
    like those of [time.time()]. *)
Variable wall : nat → string.

#[local] Existing Instances eff_ret eff_bind.

Abbreviation Eff' := (@Eff Model Any Exn).

(** [datetime.now().isoformat()]. *)
Definition datetime_now : Eff' string := λ w,
  (inr (wall (ticks w)),
   mkWorld (engine w) (S (ticks w)) (stdout w) (calls w)).

(** The loop of [generate_with_alternatives]: [i] is the loop variable,
    [n] the number of rounds left and [alternatives] the texts collected.
    A [max_length] among the keyword arguments reaches the parameter of
    [generate]; [kwargs] holds the other ones. *)
Fixpoint alternatives_loop (i : Z) (n : nat) (prompt : string)
    (max_length : option Z) (kwargs : gmap string Any)
    (alternatives : list string) : Eff' (list string) :=
  match n with
  | O => mret alternatives
  | S n' =>
      self ← get_self;
      let temp :=
        PrimFloat.add (InferenceConfig.temperature (config self))
          (PrimFloat.mul (PyFloat.of_int i) 0.1) in
      result ← generate model_generate clock prompt max_length (Some temp)
                 false kwargs;
      alternatives_loop (i + 1) n' prompt max_length kwargs
        (alternatives ++ [result])
  end.

(** [generate_with_alternatives]; [range(num_alternatives)] is empty for
    a negative number. *)
Definition generate_with_alternatives (prompt : string)
    (num_alternatives : Z) (max_length : option Z)
    (kwargs : gmap string Any) : Eff' (list string) :=
  alternatives_loop 0 (Z.to_nat num_alternatives) prompt max_length kwargs [].

(** The loop of [interactive_generate]: [turn] is the loop variable and
    [n] the number of rounds left. The keyword arguments [max_length],
    [temperature] and [use_cache] reach the parameters of [generate]
    ([use_cache] is true when absent). *)
Fixpoint interactive_loop (turn : Z) (n : nat) (current_context : string)
    (max_length : option Z) (temperature : option float) (use_cache : bool)
    (kwargs : gmap string Any) (conversation : list InteractiveTurn.t)
    : Eff' (list InteractiveTurn.t) :=
  match n with
  | O => mret conversation
  | S n' =>
      response ← generate model_generate clock current_context max_length
                   temperature use_cache kwargs;
      now ← datetime_now;
      let conversation :=
        conversation
        ++ [InteractiveTurn.mk (turn + 1) current_context response now] in
      let current_context := current_context +:+ " " +:+ response in
      interactive_loop (turn + 1) n' current_context max_length temperature
        use_cache kwargs conversation
  end.

(** [interactive_generate]. *)
Definition interactive_generate (initial_prompt : string) (num_turns : Z)
    (max_length : option Z) (temperature : option float) (use_cache : bool)
    (kwargs : gmap string Any) : Eff' (list InteractiveTurn.t) :=
  interactive_loop 0 (Z.to_nat num_turns) initial_prompt max_length
    temperature use_cache kwargs [].

(** [get_statistics]: a copy of the statistics with the size of the cache
    and the tokens per request, which are the integer 0 when no request
    was counted. *)
Definition engine_statistics (self : InferenceEngine Model)
    : arith_exn + EngineStatistics.t :=
  let stats := inference_stats self in
  let cache_size := Z.of_nat (size (_response_cache self)) in
  if 0 <? total_requests stats then
    match PyArith.truediv (total_tokens_generated stats)
            (total_requests stats) with
    | inl e => inl e
    | inr ratio =>
        inr (EngineStatistics.mk (total_requests stats)
               (total_tokens_generated stats) (average_latency stats)
               cache_size (inr ratio))
    end
  else
    inr (EngineStatistics.mk (total_requests stats)
           (total_tokens_generated stats) (average_latency stats)
           cache_size (inl 0)).

(** *** Sequences of calls *)

(** The arguments of one [generate] call. *)
Record Request := mkRequest {
  req_prompt : string;
  req_max_length : option Z;
  req_temperature : option float;
  req_use_cache : bool;
  req_kwargs : gmap string Any
}.

Definition serve (r : Request) : Eff' string :=
  generate model_generate clock (req_prompt r) (req_max_length r)
    (req_temperature r) (req_use_cache r) (req_kwargs r).

(** A caller that makes the calls one after the other and goes on after a
    failed call: the outcomes and the final world. *)
Fixpoint serve_all (requests : list Request) (w : World Model Any)
    : list (Exn + string) * World Model Any :=
  match requests with
  | [] => ([], w)
  | r :: requests' =>
      let '(outcome, w') := serve r w in
      let '(outcomes, w'') := serve_all requests' w' in
      (outcome :: outcomes, w'')
  end.

(** The number of failed calls among the outcomes. *)
Definition failures (outcomes : list (Exn + string)) : Z :=
  Py.len (List.filter (λ o, match o with inl _ => true | inr _ => false end)
            outcomes).

(** The progress lines of [batch_generate] for the prompts numbered from
    [idx + 1] on: one line for each multiple of ten. *)
Fixpoint progress_lines (idx total : Z) (n : nat) : list string :=
  match n with
  | O => []
  | S n' =>
      (if (idx + 1) mod 10 =? 0
       then [ "  Processed " +:+ Py.str_int (idx + 1) +:+ "/"
                +:+ Py.str_int total +:+ " prompts" ]
       else [])
      ++ progress_lines (idx + 1) total n'
  end.

(** The invocation that round [i] of [generate_with_alternatives] makes
    on an engine of configuration [cfg]. *)
Definition alternative_call (cfg : InferenceConfig.t) (prompt : string)
    (max_length : option Z) (kwargs : gmap string Any) (i : Z)
    : ModelCall Any :=
  mkCall prompt (int_or max_length (InferenceConfig.max_length cfg))
    (float_or
       (Some (PrimFloat.add (InferenceConfig.temperature cfg)
                (PrimFloat.mul (PyFloat.of_int i) 0.1)))
       (InferenceConfig.temperature cfg))
    kwargs.

End EngineMore.

(** ** [use_cases/chatbot.py]

    The chatbot holds an inference engine over the external model and a
    conversation store. Its constructor needs the model class and its
    training, which lie outside these modules; the methods below work on
    any chatbot state. *)

Section Chatbot.

(** [Any] are the values of extra keyword arguments of the engine, [Meta]
    the values of the metadata of the turns. *)
Context {Model Any Meta Exn : Type}.
Variable model_generate :
  Model → string → Z → float → gmap string Any → (Exn + string) * Model.
Variable clock : nat → float.
Variable of_str : string → Meta.

(** [inference_engine] is the engine together with what surrounds it (the
    clock, the output and the invocations received by the model). *)
Record AGIChatbot := mkChatbot {
  name : string;
  inference_engine : World Model Any;
  context_manager : ContextManager Meta
}.

(** The lines printed by the conversation store go to the same output as
    those of the engine. *)
Definition emit (lines : list string) (w : World Model Any)
    : World Model Any :=
  mkWorld (engine w) (ticks w) (stdout w ++ lines) (calls w).

(** The system message of [_setup_system_prompt]. *)
Definition system_message (name : string) : string :=
  "You are " +:+ name +:+ ", a helpful and friendly AI assistant." +:+ Py.nl
  +:+ "You provide accurate, informative, and engaging responses." +:+ Py.nl
  +:+ "You maintain context across the conversation and ask clarifying questions when needed.".

(** [_setup_system_prompt]. *)
Definition _setup_system_prompt (self : AGIChatbot) (now : string)
    : AGIChatbot :=
  let '(store, out) :=
    add_system_message of_str (context_manager self)
      (system_message (name self)) now in
  mkChatbot (name self) (emit out (inference_engine self)) store.

(** [chat]; [now_user] and [now_assistant] are the clock readings of the
    two turns. An exception of the model leaves the chatbot as it is at
    that point. *)
Definition chat (self : AGIChatbot) (user_message : string)
    (now_user now_assistant : string) : (Exn + string) * AGIChatbot :=
  let '(store, out) :=
    add_turn (context_manager self) "user" user_message None now_user in
  let w := emit out (inference_engine self) in
  let context := get_context store (Some 10) true in
  let prompt := context +:+ Py.nl +:+ "assistant:" in
  match generate model_generate clock prompt (Some 256) (Some 0.7%float)
          true ∅ w with
  | (inl e, w') => (inl e, mkChatbot (name self) w' store)
  | (inr response, w') =>
      let '(store', out') :=
        add_turn store "assistant" response None now_assistant in
      (inr response, mkChatbot (name self) (emit out' w') store')
  end.

(** [reset_conversation]. *)
Definition reset_conversation (self : AGIChatbot) (now : string)
    : AGIChatbot :=
  let '(store, out) := clear_history (context_manager self) in
  _setup_system_prompt
    (mkChatbot (name self) (emit out (inference_engine self)) store) now.

(** [get_conversation_stats]. *)
Definition get_conversation_stats (self : AGIChatbot)
    : arith_exn + Statistics.t :=
  get_statistics (context_manager self).

End Chatbot.

Arguments AGIChatbot : clear implicits.

(** ** Concrete stores and engines used in the examples *)

(** [ContextManager(max_turns=3)] and the turns A, B, C, D of the
    end-to-end scenario. *)
Definition demo_store : ContextManager Z :=
  mkManager 4096 3 40 (Deque [] 3) "" "t0" 0 0.

Definition demo_calls : list (@call Z) :=
  [ ("user", "A", None, "t1"); ("assistant", "B", None, "t2");
    ("user", "C", None, "t3"); ("assistant", "D", None, "t4") ].

(** A store that summarizes from two turns on, holding one long turn. *)
Definition long_content : string :=
  "0123456789012345678901234567890123456789012345678901234567890123456789".

Definition eager_store : ContextManager Z :=
  mkManager 4096 3 2
    (Deque [ mkTurn "user" long_content ∅ "t1" ] 3) "" "t0" 1 0.

(** The same store after a summarizing [add_turn] and two prunings: a
    summary is present and the buffer is empty. *)
Definition quiet_store : ContextManager Z :=
  run eager_store
    [ AddTurn ("assistant", "ok", None, "t2");
      PruneContext "oldest"; PruneContext "oldest" ].

(** Three turns with contents of length 5, 2 and 2. *)
Definition three_turns : list (ConversationTurn Z) :=
  [ mkTurn "user" "hello" ∅ "t1"; mkTurn "assistant" "ok" ∅ "t2";
    mkTurn "user" "no" ∅ "t3" ].

Definition full_store : ContextManager Z :=
  mkManager 4096 3 40 (Deque three_turns 3) "" "t0" 3 0.

Abbreviation demo_generate := (generate echo_model quarter_clock).

(** The world after [generate("hello")] on a fresh engine. *)
Definition after_hello : World unit Z :=
  snd (demo_generate "hello" None None true ∅ fresh_world).

(** A sequence of operations on the store of the end-to-end scenario. *)
Definition demo_ops : list (@op Z) :=
  [ AddTurn ("user", "A", None, "t1"); AddTurn ("assistant", "B", None, "t2");
    PruneContext "oldest"; AddTurn ("user", "C", None, "t3");
    ClearHistory; AddTurn ("assistant", "D", None, "t4") ].

(** A new store that summarizes from two turns on. *)
Definition eager_new_store : ContextManager Z :=
  mkManager 4096 3 2 (Deque [] 3) "" "t0" 0 0.

(** A store whose oldest turn has the shortest content. *)
Definition short_first_store : ContextManager Z :=
  mkManager 4096 3 40
    (Deque [ mkTurn "user" "ok" ∅ "t1"; mkTurn "assistant" "hello" ∅ "t2";
             mkTurn "user" "no" ∅ "t3" ] 3) "" "t0" 3 0.

(** A store whose [max_context_length] is 0. *)
Definition zero_length_store : ContextManager Z :=
  mkManager 0 3 40 (Deque three_turns 3) "" "t0" 3 0.

(** A batch with a repeated prompt, and the world it leaves. *)
Definition demo_batch : list string := [ "a"; "b"; "a" ].

Definition after_batch : World unit Z :=
  snd (batch_generate echo_model quarter_clock demo_batch None None ∅
         fresh_world).

(** A wall clock for the timestamps of [interactive_generate]. *)
Definition demo_wall (n : nat) : string := "T" +:+ Py.str_int (Z.of_nat n).

Definition after_interactive : World unit Z :=
  snd (interactive_generate echo_model quarter_clock demo_wall "p" 2 None
         None true ∅ fresh_world).

(** A chatbot over the echoing model whose store is the one its
    constructor builds, [ContextManager(max_context_length=2048)], after
    the system message. *)
Definition demo_bot : AGIChatbot unit Z string :=
  _setup_system_prompt (λ s, s)
    (mkChatbot "Bot" fresh_world
       (mkManager 2048 50 40 (Deque [] 50) "" "t0" 0 0))
    "t1".

(** The same chatbot over a model that fails on every prompt. *)
Definition failing_model (m : unit) (prompt : string) (max_length : Z)
    (temperature : float) (kwargs : gmap string Z)
    : (string + string) * unit :=
  (inl "model failure", m).
(** ** Properties of the bounded buffer *)

Section BufferFacts.

Context {A : Type}.
Implicit Types (l : list A) (d : deque A) (x : A).

Lemma last_n_length n l : length (last_n n l) = Nat.min (length l) n.
Proof. unfold last_n. rewrite length_drop. lia. Qed.

Lemma last_n_all n l : (length l ≤ n)%nat → last_n n l = l.
Proof.
  intros Hle. unfold last_n.
  replace (length l - n)%nat with 0%nat by lia. done.
Qed.

Lemma last_n_snoc n l x : last_n n (last_n n l ++ [x]) = last_n n (l ++ [x]).
Proof.
  destruct (decide (length l ≤ n)%nat) as [Hle|Hgt].
  - by rewrite (last_n_all n l).
  - destruct (decide (n = 0)%nat) as [->|Hn].
    { unfold last_n at 1 3. by rewrite !Nat.sub_0_r, !drop_all. }
    unfold last_n at 1 3. rewrite !length_app, last_n_length. simpl.
    unfold last_n.
    rewrite (drop_app_le l) by lia.
    rewrite drop_app_le by (rewrite length_drop; lia).
    rewrite drop_drop. f_equal. f_equal. lia.
Qed.

Lemma append_items d x :
  (length (items d) ≤ maxlen d)%nat →
  items (Deque.append x d) = last_n (maxlen d) (items d ++ [x]).
Proof.
  intros Hle. unfold Deque.append, last_n. simpl.
  rewrite length_app. simpl.
  destruct (Nat.ltb_spec (maxlen d) (length (items d) + 1)).
  - replace (length (items d) + 1 - maxlen d)%nat with 1%nat by lia. done.
  - replace (length (items d) + 1 - maxlen d)%nat with 0%nat by lia. done.
Qed.

Lemma append_maxlen d x : maxlen (Deque.append x d) = maxlen d.
Proof. done. Qed.

Lemma append_length_le d x :
  (length (items d) ≤ maxlen d)%nat →
  (length (items (Deque.append x d)) ≤ maxlen d)%nat.
Proof. intros H. rewrite append_items, last_n_length by done. lia. Qed.

End BufferFacts.

(** ** Properties of the conversation store *)

Section ContextManagerFacts.

Context {Any : Type}.

Abbreviation Turn := (ConversationTurn Any).
Abbreviation Manager := (ContextManager Any).

Implicit Types (self : Manager) (calls : list (@call Any)).

Ltac unfold_store :=
  unfold add_call, add_turn, _summarize_context, clear_history,
    set_summarization_count, set_summary, set_total_turns, set_history,
    buffer, Deque.len, Py.len in *;
  simpl in *.

Lemma init_inr mcl mt th now self :
  init mcl mt th now = inr self →
  0 ≤ mt ∧
  self = mkManager mcl mt th (Deque [] (Z.to_nat mt)) "" now 0 0.
Proof.
  unfold init, Deque.new. destruct (Z.ltb_spec mt 0); [done|].
  intros [= <-]. done.
Qed.

Lemma add_turn_history self role content metadata now :
  conversation_history (fst (add_turn self role content metadata now))
  = Deque.append (new_turn role content metadata now)
      (conversation_history self).
Proof. unfold_store. repeat case_match; done. Qed.

Lemma add_turn_total_turns self role content metadata now :
  total_turns (fst (add_turn self role content metadata now))
  = total_turns self + 1.
Proof. unfold_store. repeat case_match; done. Qed.

Lemma add_turn_max_turns self role content metadata now :
  max_turns (fst (add_turn self role content metadata now))
  = max_turns self.
Proof. unfold_store. repeat case_match; done. Qed.

Lemma add_turn_threshold self role content metadata now :
  summarization_threshold (fst (add_turn self role content metadata now))
  = summarization_threshold self.
Proof. unfold_store. repeat case_match; done. Qed.

Lemma add_turns_snoc self calls c :
  add_turns self (calls ++ [c]) = add_call (add_turns self calls) c.
Proof. unfold add_turns. by rewrite fold_left_app. Qed.

Lemma add_call_history self c :
  conversation_history (add_call self c)
  = Deque.append (turn_of c) (conversation_history self).
Proof. destruct c as [[[r c] m] t]. apply add_turn_history. Qed.

Lemma add_call_total_turns self c :
  total_turns (add_call self c) = total_turns self + 1.
Proof. destruct c as [[[r c] m] t]. apply add_turn_total_turns. Qed.

Lemma add_call_max_turns self c : max_turns (add_call self c) = max_turns self.
Proof. destruct c as [[[r c] m] t]. apply add_turn_max_turns. Qed.

(** The state reached by a run of [add_turn] calls from a store whose
    buffer respects its capacity. *)
Lemma add_turns_buffer calls : ∀ self,
  within_capacity self →
  let self' := add_turns self calls in
  buffer self'
  = last_n (maxlen (conversation_history self))
      (buffer self ++ (turn_of <$> calls)) ∧
  maxlen (conversation_history self') = maxlen (conversation_history self) ∧
  max_turns self' = max_turns self ∧
  total_turns self' = total_turns self + Py.len calls.
Proof.
  induction calls as [|c calls IH] using rev_ind; intros self Hcap; simpl.
  - rewrite app_nil_r, last_n_all by done.
    unfold Py.len; simpl. repeat split; lia.
  - destruct (IH self Hcap) as (Hbuf & Hmax & Hmt & Htot).
    rewrite add_turns_snoc. unfold buffer in *.
    rewrite add_call_history, add_call_total_turns, add_call_max_turns.
    rewrite append_maxlen, append_items.
    + rewrite Hmax, Hbuf, fmap_app, app_assoc. simpl.
      rewrite last_n_snoc. repeat split; try done.
      rewrite Htot. unfold Py.len. rewrite length_app. simpl. lia.
    + rewrite Hbuf, Hmax, last_n_length. lia.
Qed.

(** C1: from any store built by the constructor and after any sequence of
    [add_turn] calls, the buffer is never longer than [max_turns]; it
    holds exactly the last [min(total added, max_turns)] turns added,
    oldest first; the counter of turns ever added equals the number of
    calls, is at least the buffer length, and grows by one with each
    further [add_turn]. *)
Theorem add_turn_bounded_recent mcl mt th now self calls :
  init mcl mt th now = inr self →
  let self' := add_turns self calls in
  let added := turn_of <$> calls in
  let k := Nat.min (length calls) (Z.to_nat (max_turns self')) in
  Deque.len (conversation_history self') ≤ max_turns self' ∧
  buffer self' = drop (length added - k) added ∧
  length (buffer self') = k ∧
  total_turns self' = Py.len calls ∧
  Deque.len (conversation_history self') ≤ total_turns self' ∧
  (∀ role content metadata now',
     total_turns (fst (add_turn self' role content metadata now'))
     = total_turns self' + 1).
Proof.
  intros Hinit. apply init_inr in Hinit as (Hmt & ->).
  set (self := mkManager _ _ _ _ _ _ _ _).
  assert (Hcap : within_capacity self) by (unfold within_capacity; simpl; lia).
  destruct (add_turns_buffer calls self Hcap) as (Hbuf & _ & Hmax & Htot).
  simpl in *. unfold Deque.len, Py.len. fold (buffer (add_turns self calls)).
  rewrite Hmax, Htot, Hbuf. unfold last_n.
  rewrite length_drop, !length_fmap. unfold Py.len.
  repeat split; try lia.
  - apply (f_equal (λ n, drop n (turn_of <$> calls))). lia.
  - intros. by rewrite add_turn_total_turns, Htot.
Qed.

(** The loop over the turns to summarise adds one bullet for each turn
    whose content is longer than 50 characters. *)
Lemma add_key_points_filter (turns : list Turn) : ∀ parts,
  add_key_points parts turns
  = parts ++ (summary_bullet <$>
                filter (λ t, 50 < Py.len_str (content t)) turns).
Proof.
  unfold add_key_points.
  induction turns as [|t turns IH]; intros parts; simpl.
  - by rewrite app_nil_r.
  - rewrite IH, filter_cons.
    destruct (Z.ltb_spec 50 (Py.len_str (content t))); case_decide; try lia.
    + by rewrite <- app_assoc.
    + done.
Qed.

Lemma slice_to_half {A} (l : list A) :
  Py.slice_to (Py.len l / 2) l = take (length l / 2) l.
Proof.
  unfold Py.slice_to, Py.len.
  assert (0 ≤ Z.of_nat (length l) / 2) by (apply Z.div_pos; lia).
  destruct (Z.ltb_spec (Z.of_nat (length l) / 2) 0); [lia|].
  f_equal. change 2 with (Z.of_nat 2).
  by rewrite <- Nat2Z.inj_div, Nat2Z.id.
Qed.

(** C6: [add_turn] appends the turn; if the buffer then holds at least
    [summarization_threshold] turns, the summary is replaced by the digest
    of the first half (floor) of the buffer, with one bullet
    [- role: first 50 characters...] for each of these turns whose content
    is longer than 50 characters, below the two header lines, and the
    summarization counter grows by one; the buffer is the one left by the
    append, so summarization removes no turn. With fewer turns than the
    threshold, summary and counter are unchanged. *)
Theorem add_turn_summarization self role content metadata now :
  let self' := fst (add_turn self role content metadata now) in
  buffer self'
  = items (Deque.append (new_turn role content metadata now)
             (conversation_history self)) ∧
  (summarization_threshold self ≤ Py.len (buffer self') →
     context_summary self' = digest (buffer self') ∧
     summarization_count self' = summarization_count self + 1) ∧
  (Py.len (buffer self') < summarization_threshold self →
     context_summary self' = context_summary self ∧
     summarization_count self' = summarization_count self).
Proof.
  cbv zeta. unfold buffer, add_turn.
  set (h := Deque.append _ _). clearbody h. simpl. unfold Deque.len.
  destruct (Z.leb_spec (summarization_threshold self) (Py.len (items h)))
    as [Hge|Hlt].
  - unfold _summarize_context. simpl. unfold Deque.len.
    destruct (Z.ltb_spec (Py.len (items h)) (summarization_threshold self));
      [lia|]. simpl.
    split; [done|]. split; [|intros; lia]. intros _. split; [|done].
    unfold digest. by rewrite add_key_points_filter, slice_to_half.
  - simpl. split; [done|]. split; [intros; lia|done].
Qed.

(** *** Pruning *)

Lemma min_scan_first_min {A} (key : A → Z) (l : list A) :
  ∀ seen best_i best_k,
    first_min_at key seen best_i best_k →
    ∃ k, first_min_at key (seen ++ l)
           (Py.min_scan key best_i best_k (length seen) l) k.
Proof.
  induction l as [|x l IH]; intros seen bi bk Hmin; simpl.
  - rewrite app_nil_r. eauto.
  - replace (seen ++ x :: l) with ((seen ++ [x]) ++ l)
      by (by rewrite <- app_assoc).
    replace (S (length seen)) with (length (seen ++ [x]))
      by (rewrite length_app; simpl; lia).
    destruct Hmin as (pre & t & post & -> & Hlen & Hk & Hpre & Hpost).
    destruct (Z.ltb_spec (key x) bk) as [Hlt|Hge].
    + apply IH. exists (pre ++ t :: post), x, [].
      repeat split; [|constructor].
      apply Forall_app. split.
      * eapply Forall_impl; [exact Hpre|]. simpl. lia.
      * constructor; [lia|].
        eapply Forall_impl; [exact Hpost|]. simpl. lia.
    + apply IH. exists pre, t, (post ++ [x]).
      repeat split; try done.
      * by rewrite <- app_assoc.
      * apply Forall_app. split; [done|]. constructor; [lia|constructor].
Qed.

(** [min] over a non-empty list returns the first item of least key. *)
Lemma min_index_first_min {A} (key : A → Z) (l : list A) :
  l ≠ [] → ∃ i k, Py.min_index key l = Some i ∧ first_min_at key l i k.
Proof.
  destruct l as [|x l]; [done|]. intros _. simpl.
  destruct (min_scan_first_min key l [x] 0%nat (key x)) as [k Hk].
  - exists [], x, []. repeat split; constructor.
  - eauto.
Qed.

(** C8: [prune_context("oldest")] removes exactly the first (earliest)
    turn of a non-empty buffer; [prune_context("least_relevant")] removes
    exactly one turn, whose content is strictly shorter than that of every
    earlier turn and no longer than that of every later turn (the shortest
    content, the earliest on ties); both do nothing on an empty buffer,
    and any other strategy does nothing in any state. Nothing but the
    buffer changes. *)
Theorem prune_context_spec self strategy :
  let keep (l : list Turn) :=
    set_history (Deque l (maxlen (conversation_history self))) self in
  let size (t : Turn) := Py.len_str (content t) in
  (strategy = "oldest" →
     (∀ t rest, buffer self = t :: rest →
        fst (prune_context self strategy) = keep rest) ∧
     (buffer self = [] → prune_context self strategy = (self, []))) ∧
  (strategy = "least_relevant" →
     (buffer self ≠ [] →
        ∃ pre t post,
          buffer self = pre ++ t :: post ∧
          fst (prune_context self strategy) = keep (pre ++ post) ∧
          Forall (λ x, size t < size x) pre ∧
          Forall (λ x, size t ≤ size x) post) ∧
     (buffer self = [] → prune_context self strategy = (self, []))) ∧
  (strategy ≠ "oldest" → strategy ≠ "least_relevant" →
     prune_context self strategy = (self, [])).
Proof.
  cbv zeta. unfold buffer, prune_context, Deque.len, Py.len, Deque.popleft.
  split; [|split].
  - intros ->. simpl. split.
    + intros t rest ->. done.
    + intros ->. done.
  - intros ->. simpl. split.
    + intros Hne.
      destruct (min_index_first_min
                  (λ t : Turn, Py.len_str (content t))
                  (items (conversation_history self)) Hne)
        as (i & k & Hi & pre & t & post & Hl & Hlen & Hk & Hpre & Hpost).
      exists pre, t, post. rewrite Hi, Hl. subst i k.
      rewrite list_lookup_middle by done.
      destruct (Z.ltb_spec 0 (Z.of_nat (length (pre ++ t :: post)))).
      * unfold Deque.remove_at. rewrite Hl, delete_middle. done.
      * rewrite length_app in *. simpl in *. lia.
    + intros ->. done.
  - intros H1 H2.
    destruct (String.eqb_spec strategy "oldest"); [done|].
    destruct (String.eqb_spec strategy "least_relevant"); done.
Qed.

(** *** Rendering *)

Lemma fold_turn_lines (turns : list Turn) : ∀ parts,
  fold_left (λ parts turn, parts ++ [role turn +:+ ": " +:+ content turn])
    turns parts
  = parts ++ (turn_line <$> turns).
Proof.
  induction turns as [|t turns IH]; intros parts; simpl.
  - by rewrite app_nil_r.
  - by rewrite IH, <- app_assoc.
Qed.

(** What [get_context] renders, whatever [num_turns] is. *)
Lemma get_context_lines self num_turns include_summary :
  get_context self num_turns include_summary
  = Py.join Py.nl
      (summary_block self include_summary
       ++ (turn_line <$>
             match num_turns with
             | Some n => Py.slice_from (- n) (buffer self)
             | None => buffer self
             end)).
Proof. unfold get_context. by rewrite fold_turn_lines. Qed.

(** For a positive [num_turns] the slice is the last [num_turns] turns. *)
Lemma slice_from_last {A} (n : Z) (l : list A) :
  0 < n → Py.slice_from (- n) l = last_n (Z.to_nat n) l.
Proof.
  intros Hn. unfold Py.slice_from, last_n, Py.len.
  destruct (Z.ltb_spec (- n) 0); [|lia]. f_equal. lia.
Qed.

(** With [num_turns] omitted or positive, [get_context] renders the
    summary block (when requested and non-empty) followed by the last
    [num_turns] turns (all of them when omitted), oldest first. *)
Lemma get_context_positive self num_turns include_summary :
  (∀ n, num_turns = Some n → 0 < n) →
  get_context self num_turns include_summary
  = Py.join Py.nl
      (summary_block self include_summary
       ++ (turn_line <$>
             match num_turns with
             | Some n => last_n (Z.to_nat n) (buffer self)
             | None => buffer self
             end)).
Proof.
  intros Hpos. rewrite get_context_lines.
  destruct num_turns as [n|]; [|done].
  by rewrite slice_from_last by auto.
Qed.

(** C7, at [num_turns = 0]: the slice [turns[-0:]] is the whole list, so
    [get_context(num_turns=0)] renders every turn of the buffer, exactly
    as when [num_turns] is omitted, and not the last zero turns. *)
Theorem get_context_zero_renders_all self include_summary :
  get_context self (Some 0) include_summary
  = Py.join Py.nl
      (summary_block self include_summary ++ (turn_line <$> buffer self)) ∧
  get_context self (Some 0) include_summary
  = get_context self None include_summary.
Proof. by rewrite !get_context_lines. Qed.

(** *** Summarization and capacity *)

Lemma delete_length_le {A} (i : nat) (l : list A) :
  (length (delete i l) ≤ length l)%nat.
Proof.
  revert i. induction l as [|x l IH]; intros [|i]; simpl; try lia.
  specialize (IH i). lia.
Qed.

Lemma apply_op_never_summarized cap th self o :
  Z.of_nat cap < th →
  never_summarized cap th self →
  never_summarized cap th (apply_op self o).
Proof.
  intros Hth (Hmax & Hlen & Hthr & Hcount & Hsum).
  unfold never_summarized, buffer in *.
  destruct o as [[[[r c] m] t]| |strategy]; simpl.
  - rewrite add_turn_history, append_maxlen.
    pose proof (append_length_le (conversation_history self)
                  (new_turn r c m t)) as Hle.
    rewrite Hmax in Hle. specialize (Hle Hlen).
    split; [done|]. split; [done|].
    unfold add_turn. simpl. unfold Deque.len, Py.len.
    set (h := Deque.append _ _) in *. clearbody h.
    destruct (Z.leb_spec (summarization_threshold self)
                (Z.of_nat (length (items h)))); [lia|done].
  - repeat split; simpl; try done. lia.
  - unfold prune_context, Deque.len, Py.len, Deque.popleft.
    repeat case_match; simpl; repeat split; try done; simplify_eq; simpl in *;
      try lia.
    etrans; [apply delete_length_le|done].
Qed.

(** C10: a store built with [summarization_threshold] strictly above
    [max_turns] never summarizes: after any sequence of [add_turn],
    [clear_history] and [prune_context] calls the summarization counter is
    0 and the summary is empty. *)
Theorem no_summarization_above_capacity mcl mt th now self ops :
  init mcl mt th now = inr self →
  mt < th →
  summarization_count (run self ops) = 0 ∧
  context_summary (run self ops) = "".
Proof.
  intros Hinit Hlt. apply init_inr in Hinit as (Hmt & ->).
  set (self := mkManager _ _ _ _ _ _ _ _).
  assert (Hinv : never_summarized (Z.to_nat mt) th self)
    by (repeat split; simpl; lia).
  clearbody self. revert self Hinv.
  induction ops as [|o ops IH]; intros self Hinv; simpl.
  - destruct Hinv as (_ & _ & _ & ? & ?). done.
  - apply IH, apply_op_never_summarized; [lia|done].
Qed.

End ContextManagerFacts.

(** ** Properties of the statistics *)

Section StatisticsFacts.

Context {F : Type} `{Number F}.

Implicit Types (gens : list (string * F)) (g : string * F).

Lemma record_all_snoc gens g :
  record_all (gens ++ [g]) = _update_stats (record_all gens) (fst g) (snd g).
Proof. unfold record_all. by rewrite fold_left_app. Qed.

Lemma total_words_snoc gens g :
  total_words (gens ++ [g])
  = total_words gens + Py.len (Py.split (fst g)).
Proof. unfold total_words. by rewrite fold_left_app. Qed.

Lemma total_latency_snoc gens g :
  total_latency (gens ++ [g]) = add (total_latency gens) (snd g).
Proof. unfold total_latency. by rewrite fold_left_app. Qed.

(** The two counters, whatever the arithmetic of the latencies. *)
Lemma record_all_counters gens :
  total_requests (record_all gens) = Py.len gens ∧
  total_tokens_generated (record_all gens) = total_words gens.
Proof.
  induction gens as [|g gens [IHn IHw]] using rev_ind; [done|].
  rewrite record_all_snoc, total_words_snoc. simpl.
  rewrite IHn, IHw. unfold Py.len. rewrite length_app. simpl. lia.
Qed.

End StatisticsFacts.

(** In exact arithmetic the running mean times the number of requests is
    the sum of the latencies. *)
Lemma running_mean_sum (gens : list (string * Q)) :
  (average_latency (record_all gens) * inject_Z (Py.len gens)
   == total_latency gens)%Q.
Proof.
  induction gens as [|g gens IH] using rev_ind.
  - reflexivity.
  - rewrite record_all_snoc, total_latency_snoc. simpl.
    destruct (record_all_counters gens) as [Hn _]. rewrite Hn.
    replace (Py.len gens + 1 - 1) with (Py.len gens) by lia.
    replace (Py.len (gens ++ [g])) with (Py.len gens + 1)
      by (unfold Py.len; rewrite length_app; simpl; lia).
    rewrite IH.
    assert (Hpos : ¬ (inject_Z (Py.len gens + 1) == 0)%Q).
    { unfold Py.len, Qeq. simpl. lia. }
    field. exact Hpos.
Qed.

(** C5, as the code computes it: after any sequence of [n] statistics
    updates, [total_requests] is [n] and [total_tokens_generated] is the
    sum of the word counts, in binary64 as in exact arithmetic; and when
    the incremental update [(avg * (n - 1) + latency) / n] is evaluated in
    exact rational arithmetic, [average_latency] times [n] is the sum of
    the latencies and [average_latency] is their arithmetic mean (for
    [n = 0] both are zero, with the convention [x / 0 = 0] of the
    rationals). *)
Theorem running_statistics (fgens : list (string * float))
    (gens : list (string * Q)) :
  (total_requests (record_all fgens) = Py.len fgens ∧
   total_tokens_generated (record_all fgens) = total_words fgens) ∧
  (total_requests (record_all gens) = Py.len gens ∧
   total_tokens_generated (record_all gens) = total_words gens ∧
   (average_latency (record_all gens) * inject_Z (Py.len gens)
    == total_latency gens)%Q ∧
   (average_latency (record_all gens) == mean_latency gens)%Q).
Proof.
  split; [apply record_all_counters|].
  destruct (record_all_counters gens) as [Hn Hw].
  split; [done|]. split; [done|]. split; [apply running_mean_sum|].
  unfold mean_latency. simpl. rewrite <- running_mean_sum.
  destruct gens as [|g gens]; [reflexivity|].
  field. unfold Py.len, Qeq. simpl. lia.
Qed.

(** ** Properties of the cache key *)

Lemma string_app_inv_head (p a b : string) : p +:+ a = p +:+ b → a = b.
Proof. induction p as [|c p IH]; simpl; [done|]. intros [= Heq]. auto. Qed.

(** [str] of an integer starts with a digit or a minus sign. *)
Lemma str_int_head (n : Z) :
  ∃ c rest, Py.str_int n = String c rest ∧ c ≠ "N"%char.
Proof.
  unfold Py.str_int, Z.to_int.
  destruct n as [|p|p]; simpl.
  - by eexists _, _.
  - destruct (Pos.to_uint p); simpl; by eexists _, _.
  - by eexists _, _.
Qed.

(** A call that passes [max_length] never shares its key with a call that
    omits both parameters. *)
Lemma cache_key_omitted_ne_given prompt n temperature :
  cache_key prompt None None ≠ cache_key prompt (Some n) temperature.
Proof.
  unfold cache_key. intros Heq.
  apply string_app_inv_head in Heq. unfold fmt_int in Heq.
  destruct (str_int_head n) as (c & rest & Hs & Hc).
  rewrite Hs in Heq. cbv [String.append] in Heq.
  injection Heq as Hhead _. congruence.
Qed.

(** ** Properties of [generate] *)

Create HintDb eff discriminated.

#[global] Hint Unfold generate update_stats cache_store call_model
  time_time get_self set_self print : eff.

Section EngineFacts.

Context {Model Any Exn : Type}.
Variable model_generate :
  Model → string → Z → float → gmap string Any → (Exn + string) * Model.
Variable clock : nat → float.

Implicit Types (w : World Model Any) (kwargs : gmap string Any).

(** Running a computation: its steps and the two monad operations are
    unfolded down to the world they act on. *)
Ltac unfold_eff :=
  autounfold with eff in *;
  unfold mbind, mret, eff_bind, eff_ret in *;
  simpl in *.

(** A call whose key is found returns the entry and touches nothing. *)
Lemma generate_served prompt max_length temperature use_cache kwargs w cached :
  cache_hit (engine w) use_cache (cache_key prompt max_length temperature)
  = Some cached →
  generate model_generate clock prompt max_length temperature use_cache
    kwargs w
  = (inr cached, w).
Proof. intros Hhit. unfold_eff. by rewrite Hhit. Qed.

(** C4: when [use_cache] is true and the key of the call is in the cache,
    [generate] returns the cached text and leaves the whole world as it
    was: the three statistics, the cache, the model (no invocation is
    recorded) and the clock. *)
Theorem generate_cache_hit w prompt max_length temperature kwargs cached :
  _response_cache (engine w) !! cache_key prompt max_length temperature
  = Some cached →
  generate model_generate clock prompt max_length temperature true kwargs w
  = (inr cached, w) ∧
  inference_stats
    (engine (snd (generate model_generate clock prompt max_length
                    temperature true kwargs w)))
  = inference_stats (engine w) ∧
  calls (snd (generate model_generate clock prompt max_length temperature
                true kwargs w))
  = calls w.
Proof.
  intros Hhit.
  assert (Hrun : generate model_generate clock prompt max_length temperature
                   true kwargs w = (inr cached, w))
    by (by apply generate_served).
  by rewrite Hrun.
Qed.

(** A call that misses the cache invokes the model once, with the resolved
    parameters and the extra keyword arguments. *)
Lemma generate_miss_calls w prompt max_length temperature use_cache kwargs :
  cache_hit (engine w) use_cache (cache_key prompt max_length temperature)
  = None →
  calls (snd (generate model_generate clock prompt max_length temperature use_cache kwargs w))
  = calls w
    ++ [mkCall prompt (resolved_max_length w max_length)
          (resolved_temperature w temperature) kwargs].
Proof.
  intros Hmiss. unfold_eff. rewrite Hmiss. simpl.
  unfold resolved_max_length, resolved_temperature.
  destruct (model_generate _ _ _ _ _) as [[e|text] model']; simpl; [done|].
  by destruct use_cache.
Qed.

(** One round of the loop of [batch_generate]. *)
Lemma batch_loop_cons idx total prompt prompts max_length temperature kwargs
    acc w :
  batch_loop model_generate clock idx total (prompt :: prompts) max_length temperature kwargs
    acc w
  = match generate model_generate clock prompt max_length temperature true kwargs w with
    | (inl e, w') => (inl e, w')
    | (inr result, w') =>
        batch_loop model_generate clock (idx + 1) total prompts max_length temperature kwargs
          (acc ++ [result])
          (if (idx + 1) mod 10 =? 0
           then snd (print (Exn:=Exn)
                       ("  Processed " +:+ Py.str_int (idx + 1) +:+ "/"
                          +:+ Py.str_int total +:+ " prompts") w')
           else w')
    end.
Proof.
  simpl. unfold mbind at 1. unfold eff_bind at 1.
  destruct (generate model_generate clock _ _ _ _ _ _) as [[e|result] w']; [done|].
  unfold mbind at 1. unfold eff_bind at 1.
  by destruct ((idx + 1) mod 10 =? 0).
Qed.

(** [batch_generate] in terms of its loop. *)
Lemma batch_generate_unfold prompts max_length temperature kwargs w :
  batch_generate model_generate clock prompts max_length temperature kwargs w
  = match batch_loop model_generate clock 0 (Py.len prompts) prompts max_length temperature
            kwargs []
            (snd (print (Exn:=Exn)
                    ("Processing batch of " +:+ Py.str_int (Py.len prompts)
                       +:+ " prompts...") w)) with
    | (inl e, w') => (inl e, w')
    | (inr results, w') =>
        (inr results, snd (print (Exn:=Exn) "Batch processing complete!" w'))
    end.
Proof.
  unfold batch_generate. unfold mbind at 1. unfold eff_bind at 1. simpl.
  unfold mbind at 1. unfold eff_bind at 1.
  by destruct (batch_loop model_generate clock _ _ _ _ _ _ _ _) as [[e|results] w'].
Qed.

(** A loop that has processed [pre] and fails on the next prompt fails as
    a whole, in the state of that failure. *)
Lemma batch_loop_fails pre prompt post max_length temperature kwargs e w' :
  ∀ idx total acc w results w1,
    batch_loop model_generate clock idx total pre max_length temperature kwargs acc w
    = (inr results, w1) →
    generate model_generate clock prompt max_length temperature true kwargs w1 = (inl e, w') →
    batch_loop model_generate clock idx total (pre ++ prompt :: post) max_length temperature
      kwargs acc w
    = (inl e, w').
Proof.
  induction pre as [|p pre IH]; intros idx total acc w results w1 Hpre Hfail.
  - simpl in Hpre. injection Hpre as _ <-.
    simpl app. rewrite batch_loop_cons. by rewrite Hfail.
  - simpl app. rewrite batch_loop_cons in *.
    destruct (generate model_generate clock p _ _ _ _ _) as [[e0|r0] w0]; [done|].
    eapply IH; eauto.
Qed.

(** C2: when the call reaches the model and the model raises, [generate]
    raises the same exception and leaves the cache and the statistics as
    they were; and when [batch_generate] has processed the prompts [pre]
    and the model raises on the next prompt, the batch raises that
    exception with the cache and the statistics as they were before the
    failing prompt. *)
Theorem generate_model_error :
  (∀ w prompt max_length temperature use_cache kwargs e model',
     cache_hit (engine w) use_cache (cache_key prompt max_length temperature)
     = None →
     model_generate (model (engine w)) prompt
       (resolved_max_length w max_length)
       (resolved_temperature w temperature) kwargs
     = (inl e, model') →
     ∃ w',
       generate model_generate clock prompt max_length temperature use_cache kwargs w
       = (inl e, w') ∧
       _response_cache (engine w') = _response_cache (engine w) ∧
       inference_stats (engine w') = inference_stats (engine w)) ∧
  (∀ w pre prompt post max_length temperature kwargs results w1 e model',
     let prompts := pre ++ prompt :: post in
     let header :=
       "Processing batch of " +:+ Py.str_int (Py.len prompts)
         +:+ " prompts..." in
     batch_loop model_generate clock 0 (Py.len prompts) pre max_length temperature kwargs []
       (snd (print (Exn:=Exn) header w))
     = (inr results, w1) →
     cache_hit (engine w1) true (cache_key prompt max_length temperature)
     = None →
     model_generate (model (engine w1)) prompt
       (resolved_max_length w1 max_length)
       (resolved_temperature w1 temperature) kwargs
     = (inl e, model') →
     ∃ w',
       batch_generate model_generate clock prompts max_length temperature kwargs w
       = (inl e, w') ∧
       _response_cache (engine w') = _response_cache (engine w1) ∧
       inference_stats (engine w') = inference_stats (engine w1)).
Proof.
  assert (Hgen : ∀ w prompt max_length temperature use_cache kwargs e model',
     cache_hit (engine w) use_cache (cache_key prompt max_length temperature)
     = None →
     model_generate (model (engine w)) prompt
       (resolved_max_length w max_length)
       (resolved_temperature w temperature) kwargs
     = (inl e, model') →
     ∃ w',
       generate model_generate clock prompt max_length temperature use_cache kwargs w
       = (inl e, w') ∧
       _response_cache (engine w') = _response_cache (engine w) ∧
       inference_stats (engine w') = inference_stats (engine w)).
  { intros w prompt max_length temperature use_cache kwargs e model'
      Hmiss Hraise.
    unfold resolved_max_length, resolved_temperature in Hraise.
    unfold_eff. rewrite Hmiss. simpl. rewrite Hraise. simpl.
    eexists. done. }
  split; [exact Hgen|].
  intros w pre prompt post max_length temperature kwargs results w1 e model'
    prompts header Hpre Hmiss Hraise.
  destruct (Hgen w1 prompt max_length temperature true kwargs e model'
              Hmiss Hraise) as (w' & Hfail & Hcache & Hstats).
  exists w'. split; [|done].
  subst prompts header. rewrite batch_generate_unfold.
  by rewrite (batch_loop_fails pre prompt post max_length temperature kwargs
                e w' _ _ _ _ results w1 Hpre Hfail).
Qed.

(** C3, as the code computes it: the key is built from the prompt and
    from [max_length] and [temperature] as the caller passed them. A call
    that succeeded with [use_cache] fills the entry from which every later
    call with the same prompt and the same passed [max_length] and
    [temperature] is served, whatever its extra keyword arguments; a call
    that passes [max_length] explicitly never uses the entry of a call
    that omits both parameters. *)
Theorem cache_key_of_passed_arguments :
  (∀ w prompt max_length temperature kwargs kwargs' text w1,
     generate model_generate clock prompt max_length temperature true kwargs w = (inr text, w1) →
     generate model_generate clock prompt max_length temperature true kwargs' w1
     = (inr text, w1)) ∧
  (∀ prompt n temperature,
     cache_key prompt None None ≠ cache_key prompt (Some n) temperature).
Proof.
  split; [|apply cache_key_omitted_ne_given].
  intros w prompt max_length temperature kwargs kwargs' text w1 Hfirst.
  apply generate_served. unfold cache_hit.
  unfold_eff. unfold cache_hit in Hfirst.
  destruct (_response_cache (engine w) !! _) as [cached|] eqn:Hlook.
  - by injection Hfirst as -> <-.
  - destruct (model_generate _ _ _ _ _) as [[e|t] model']; [done|].
    simpl in Hfirst. injection Hfirst as -> <-. simpl.
    apply lookup_insert_eq.
Qed.

(** C9, at the arguments [max_length = 0] and [temperature = 0.0]: the
    model is invoked with the configured defaults, not with the values
    passed. *)
Theorem generate_zero_arguments_replaced w prompt kwargs :
  calls (snd (generate model_generate clock prompt (Some 0) (Some 0%float) false kwargs w))
  = calls w
    ++ [mkCall prompt (InferenceConfig.max_length (config (engine w)))
          (InferenceConfig.temperature (config (engine w))) kwargs].
Proof. by rewrite generate_miss_calls. Qed.

(** Omitted parameters resolve to the defaults, and so do the false values
    [0] and [0.0]; every other passed value is used as it is. *)
Lemma int_or_spec (x : option Z) (d : Z) :
  int_or x d = match x with
               | Some n => if decide (n = 0) then d else n
               | None => d
               end.
Proof.
  destruct x as [n|]; [|done]. simpl.
  destruct (Z.eqb_spec n 0); case_decide; done.
Qed.

Lemma float_or_spec (x : option float) (d : float) :
  float_or x d = match x with
                 | Some f => if PrimFloat.eqb f 0 then d else f
                 | None => d
                 end.
Proof.
  destruct x as [f|]; [|done]. simpl. unfold PyFloat.truthy.
  by destruct (PrimFloat.eqb f 0).
Qed.

End EngineFacts.

(** ** Concrete runs *)

(** *** The conversation store *)

Lemma add_turn_bounded_recent_witness :
  init 4096 3 40 "t0" = inr demo_store ∧
  buffer (add_turns demo_store demo_calls)
  = [ mkTurn "assistant" "B" ∅ "t2"; mkTurn "user" "C" ∅ "t3";
      mkTurn "assistant" "D" ∅ "t4" ] ∧
  total_turns (add_turns demo_store demo_calls) = 4.
Proof.
  split; [reflexivity|].
  destruct (add_turn_bounded_recent 4096 3 40 "t0" demo_store demo_calls
              eq_refl) as (_ & Hbuf & _ & Htot & _).
  split; [exact Hbuf|exact Htot].
Defined.

Lemma no_summarization_above_capacity_witness :
  init 4096 3 40 "t0" = inr demo_store ∧ 3 < 40 ∧
  summarization_count
    (run demo_store
       (ClearHistory :: PruneContext "oldest" :: (AddTurn <$> demo_calls)))
  = 0.
Proof.
  split; [reflexivity|]. split; [lia|].
  apply (no_summarization_above_capacity 4096 3 40 "t0" demo_store);
    [reflexivity|lia].
Defined.

Lemma add_turn_summarization_witness :
  (2 ≤ Py.len (buffer (fst (add_turn eager_store "assistant" "ok" None "t2")))
   ∧ context_summary (fst (add_turn eager_store "assistant" "ok" None "t2"))
     = Py.join Py.nl
         [ "Summary of 1 conversation turns:"; "Key topics discussed:";
           "- user: 01234567890123456789012345678901234567890123456789..." ]
   ∧ summarization_count
       (fst (add_turn eager_store "assistant" "ok" None "t2")) = 1) ∧
  (Py.len (buffer (fst (add_turn quiet_store "user" "more" None "t3"))) < 2
   ∧ context_summary (fst (add_turn quiet_store "user" "more" None "t3"))
     = context_summary quiet_store
   ∧ context_summary quiet_store ≠ ""
   ∧ summarization_count
       (fst (add_turn quiet_store "user" "more" None "t3")) = 1).
Proof.
  split.
  - destruct (add_turn_summarization eager_store "assistant" "ok" None "t2")
      as (_ & Hrun & _).
    assert (Hge : 2 ≤ Py.len (buffer (fst (add_turn eager_store "assistant"
                                              "ok" None "t2"))))
      by (vm_compute; discriminate).
    destruct (Hrun Hge) as [Hsum Hcount].
    split; [exact Hge|]. split; [exact Hsum|exact Hcount].
  - destruct (add_turn_summarization quiet_store "user" "more" None "t3")
      as (_ & _ & Hskip).
    assert (Hlt : Py.len (buffer (fst (add_turn quiet_store "user" "more"
                                         None "t3"))) < 2)
      by (vm_compute; reflexivity).
    destruct (Hskip Hlt) as [Hsum Hcount].
    split; [exact Hlt|]. split; [exact Hsum|].
    split; [discriminate|exact Hcount].
Defined.

Lemma prune_context_spec_witness :
  (buffer full_store = mkTurn "user" "hello" ∅ "t1" :: drop 1 three_turns ∧
   buffer (fst (prune_context full_store "oldest")) = drop 1 three_turns) ∧
  (buffer demo_store = [] ∧
   prune_context demo_store "oldest" = (demo_store, [])) ∧
  (buffer full_store ≠ [] ∧
   ∃ pre t post,
     buffer full_store = pre ++ t :: post ∧
     fst (prune_context full_store "least_relevant")
     = set_history (Deque (pre ++ post) 3) full_store ∧
     Forall (λ x, Py.len_str (content t) < Py.len_str (content x)) pre ∧
     Forall (λ x, Py.len_str (content t) ≤ Py.len_str (content x)) post) ∧
  (buffer demo_store = [] ∧
   prune_context demo_store "least_relevant" = (demo_store, [])) ∧
  ("newest" ≠ "oldest" ∧ "newest" ≠ "least_relevant" ∧
   prune_context full_store "newest" = (full_store, [])).
Proof.
  split; [|split; [|split; [|split]]].
  - split; [reflexivity|].
    destruct (prune_context_spec full_store "oldest") as (Hold & _ & _).
    destruct (Hold eq_refl) as [Hpop _].
    by rewrite (Hpop _ _ eq_refl).
  - split; [reflexivity|].
    destruct (prune_context_spec demo_store "oldest") as (Hold & _ & _).
    destruct (Hold eq_refl) as [_ Hempty]. exact (Hempty eq_refl).
  - assert (Hne : buffer full_store ≠ []) by discriminate.
    split; [exact Hne|].
    destruct (prune_context_spec full_store "least_relevant")
      as (_ & Hleast & _).
    destruct (Hleast eq_refl) as [Hmin _]. exact (Hmin Hne).
  - split; [reflexivity|].
    destruct (prune_context_spec demo_store "least_relevant")
      as (_ & Hleast & _).
    destruct (Hleast eq_refl) as [_ Hempty]. exact (Hempty eq_refl).
  - assert (H1 : "newest" ≠ "oldest") by discriminate.
    assert (H2 : "newest" ≠ "least_relevant") by discriminate.
    split; [exact H1|]. split; [exact H2|].
    destruct (prune_context_spec full_store "newest") as (_ & _ & Hother).
    exact (Hother H1 H2).
Defined.

(** [prune_context("least_relevant")] on the three turns removes the first
    of the two shortest. *)
Example prune_least_relevant_tie :
  prune_context full_store "least_relevant"
  = (set_history
       (Deque [ mkTurn "user" "hello" ∅ "t1"; mkTurn "user" "no" ∅ "t3" ] 3)
       full_store,
     [ "Removed least relevant turn: assistant" ]).
Proof. reflexivity. Qed.

(** [get_context(num_turns=0)] on a store of three turns renders the three
    turns, where the last zero turns would render nothing. *)
Example get_context_zero_turns :
  get_context full_store (Some 0) true
  = Py.join Py.nl [ "user: hello"; "assistant: ok"; "user: no" ] ∧
  Py.join Py.nl
    (summary_block full_store true
     ++ (turn_line <$> last_n 0 (buffer full_store)))
  = "" ∧
  get_context full_store (Some 1) true = "user: no".
Proof. repeat split. Qed.

(** *** The inference engine *)

Lemma generate_cache_hit_witness :
  _response_cache (engine after_hello) !! cache_key "hello" None None
  = Some "echo of hello" ∧
  demo_generate "hello" None None true ∅ after_hello
  = (inr "echo of hello", after_hello) ∧
  total_requests
    (inference_stats
       (engine (snd (demo_generate "hello" None None true ∅ after_hello))))
  = 1.
Proof.
  assert (Hhit : _response_cache (engine after_hello)
                 !! cache_key "hello" None None = Some "echo of hello")
    by (vm_compute; reflexivity).
  split; [exact Hhit|].
  destruct (generate_cache_hit echo_model quarter_clock after_hello "hello"
              None None ∅ "echo of hello" Hhit) as (Hrun & Hstats & _).
  split; [exact Hrun|]. by rewrite Hstats.
Defined.

Lemma cache_key_of_passed_arguments_witness :
  demo_generate "hello" None None true ∅ fresh_world
  = (inr "echo of hello", after_hello) ∧
  demo_generate "hello" None None true {[ "top_k" := 5 ]} after_hello
  = (inr "echo of hello", after_hello).
Proof.
  assert (Hfirst : demo_generate "hello" None None true ∅ fresh_world
                   = (inr "echo of hello", after_hello))
    by (vm_compute; reflexivity).
  split; [exact Hfirst|].
  destruct (cache_key_of_passed_arguments echo_model quarter_clock)
    as [Hserved _].
  exact (Hserved fresh_world "hello" None None ∅ {[ "top_k" := 5 ]}
           "echo of hello" after_hello Hfirst).
Defined.

(** C3, as stated, fails: after a call that omits [max_length] and
    [temperature], a call that passes the configured defaults 512 and 0.7
    has another key, finds no entry and invokes the model again. *)
Lemma explicit_defaults_miss_the_cache :
  let second :=
    demo_generate "hello" (Some 512) (Some 0.7%float) true ∅ after_hello in
  InferenceConfig.max_length (config (engine fresh_world)) = 512 ∧
  InferenceConfig.temperature (config (engine fresh_world)) = 0.7%float ∧
  cache_key "hello" None None = "hello_None_None" ∧
  cache_key "hello" (Some 512) (Some 0.7%float) = "hello_512_0.7" ∧
  _response_cache (engine after_hello) !! "hello_512_0.7" = None ∧
  length (calls after_hello) = 1%nat ∧
  length (calls (snd second)) = 2%nat ∧
  total_requests (inference_stats (engine (snd second))) = 2 ∧
  size (_response_cache (engine (snd second))) = 2%nat.
Proof. vm_compute. repeat split. Qed.

(** The model that fails on [boom]. *)
Lemma generate_model_error_witness :
  (cache_hit (engine after_hello) true (cache_key "boom" None None) = None ∧
   echo_model (model (engine after_hello)) "boom" 512 0.7%float ∅
   = (inl "model failure", ()) ∧
   ∃ w',
     demo_generate "boom" None None true ∅ after_hello
     = (inl "model failure", w') ∧
     _response_cache (engine w') = _response_cache (engine after_hello) ∧
     inference_stats (engine w') = inference_stats (engine after_hello)) ∧
  (batch_loop echo_model quarter_clock 0 3 ["hello"] None None ∅ []
     (snd (print (Exn:=string) "Processing batch of 3 prompts..."
             fresh_world))
   = (inr ["echo of hello"],
      snd (print (Exn:=string) "Processing batch of 3 prompts..."
             after_hello)) ∧
   ∃ w',
     batch_generate echo_model quarter_clock ["hello"; "boom"; "later"]
       None None ∅ fresh_world
     = (inl "model failure", w') ∧
     _response_cache (engine w') = _response_cache (engine after_hello) ∧
     inference_stats (engine w') = inference_stats (engine after_hello)).
Proof.
  destruct (generate_model_error echo_model quarter_clock) as [Hgen Hbatch].
  split.
  - assert (Hmiss : cache_hit (engine after_hello) true
                      (cache_key "boom" None None) = None)
      by (vm_compute; reflexivity).
    assert (Hraise : echo_model (model (engine after_hello)) "boom" 512
                       0.7%float ∅ = (inl "model failure", ()))
      by reflexivity.
    split; [exact Hmiss|]. split; [exact Hraise|].
    exact (Hgen after_hello "boom" None None true ∅ "model failure" ()
             Hmiss Hraise).
  - assert (Hpre :
      batch_loop echo_model quarter_clock 0 3 ["hello"] None None ∅ []
        (snd (print (Exn:=string) "Processing batch of 3 prompts..."
                fresh_world))
      = (inr ["echo of hello"],
         snd (print (Exn:=string) "Processing batch of 3 prompts..."
                after_hello)))
      by (vm_compute; reflexivity).
    split; [exact Hpre|].
    refine (Hbatch fresh_world ["hello"] "boom" ["later"] None None ∅
              ["echo of hello"] _ "model failure" () Hpre _ _);
      vm_compute; reflexivity.
Defined.

(** [generate("hi", max_length=0, temperature=0.0, use_cache=False)] on a
    fresh engine: the model receives 512 and 0.7. *)
Example generate_zero_arguments :
  calls (snd (demo_generate "hi" (Some 0) (Some 0%float) false ∅ fresh_world))
  = [ mkCall "hi" 512 0.7%float ∅ ].
Proof. vm_compute. reflexivity. Qed.

(** Non-zero arguments reach the model as passed. *)
Example generate_given_arguments :
  calls (snd (demo_generate "hi" (Some 64) (Some 0.2%float) false ∅
                fresh_world))
  = [ mkCall "hi" 64 0.2%float ∅ ].
Proof. vm_compute. reflexivity. Qed.

(** *** The statistics *)

(** Responses of 3, 5 and 2 words. *)
Example statistics_of_three_responses :
  let stats :=
    record_all [ ("one two three", 0.5%float);
                 ("a b c d e", 0.25%float); ("x y", 0.75%float) ] in
  total_requests stats = 3 ∧ total_tokens_generated stats = 10 ∧
  average_latency stats = 0.5%float.
Proof. vm_compute. repeat split. Qed.

(** C5, as stated, fails in binary64: after the latencies 0.1, 0.3, 0.5
    and 0.1 the running mean is 0.24999999999999997, which is neither the
    full recomputation [(0.1 + 0.3 + 0.5 + 0.1) / 4 = 0.25] nor, as an
    exact number, the arithmetic mean of the four latencies. *)
Lemma running_mean_rounding :
  let gens := [ ("a", 0.1%float); ("b", 0.3%float); ("c", 0.5%float);
                ("d", 0.1%float) ] in
  total_requests (record_all gens) = 4 ∧
  average_latency (record_all gens) = 0.24999999999999997%float ∧
  mean_latency gens = 0.25%float ∧
  average_latency (record_all gens) ≠ mean_latency gens ∧
  ¬ (PyFloat.to_Q (average_latency (record_all gens))
     == (PyFloat.to_Q 0.1 + PyFloat.to_Q 0.3 + PyFloat.to_Q 0.5
         + PyFloat.to_Q 0.1) / 4)%Q.
Proof.
  cbv zeta. split; [reflexivity|]. split; [vm_compute; reflexivity|].
  split; [vm_compute; reflexivity|]. split.
  - intros Heq.
    apply (f_equal (λ x, PrimFloat.eqb x 0.25)) in Heq.
    vm_compute in Heq. discriminate.
  - apply Qeq_bool_neq. vm_compute. reflexivity.
Qed.

(** ** Further properties of the conversation store *)

Section ContextManagerMoreFacts.

Context {Any : Type}.

Abbreviation Turn := (ConversationTurn Any).
Abbreviation Manager := (ContextManager Any).

Implicit Types (self : Manager) (calls : list (@call Any))
  (ops : list (@op Any)).

(** The whole effect of [add_turn] on the store. *)
Lemma add_turn_effect self role content metadata now :
  fst (add_turn self role content metadata now)
  = let h := Deque.append (new_turn role content metadata now)
               (conversation_history self) in
    let self1 := set_total_turns (total_turns self + 1) (set_history h self) in
    if summarization_threshold self <=? Deque.len h
    then set_summarization_count (summarization_count self + 1)
           (set_summary (digest (items h)) self1)
    else self1.
Proof.
  cbv zeta. unfold add_turn.
  set (h := Deque.append _ _). clearbody h. simpl.
  destruct (Z.leb_spec (summarization_threshold self) (Deque.len h)); [|done].
  unfold _summarize_context. simpl.
  destruct (Z.ltb_spec (Deque.len h) (summarization_threshold self)); [lia|].
  simpl. unfold digest, Deque.len.
  by rewrite add_key_points_filter, slice_to_half.
Qed.

Lemma run_snoc self ops o : run self (ops ++ [o]) = apply_op (run self ops) o.
Proof. unfold run. by rewrite fold_left_app. Qed.

Lemma adds_snoc ops o :
  adds (ops ++ [o]) = adds ops + (if is_add_turn o then 1 else 0).
Proof.
  unfold adds, Py.len. rewrite List.filter_app, length_app. simpl.
  destruct (is_add_turn o); simpl; lia.
Qed.

Lemma apply_op_store_ok cap self o :
  store_ok cap self →
  store_ok cap (apply_op self o) ∧
  total_turns (apply_op self o)
  = total_turns self + (if is_add_turn o then 1 else 0) ∧
  max_context_length (apply_op self o) = max_context_length self ∧
  max_turns (apply_op self o) = max_turns self ∧
  summarization_threshold (apply_op self o) = summarization_threshold self ∧
  created_at (apply_op self o) = created_at self ∧
  summarization_count self ≤ summarization_count (apply_op self o).
Proof.
  intros (Hmax & Hlen & Htot & Hcount).
  unfold store_ok, buffer, Py.len in *.
  destruct o as [[[[r c] m] t]| |strategy]; simpl.
  - rewrite add_turn_effect. cbv zeta.
    pose proof (append_length_le (conversation_history self)
                  (new_turn r c m t)) as Hle.
    rewrite Hmax in Hle. specialize (Hle Hlen).
    set (h := Deque.append _ _) in *.
    assert (maxlen h = cap) by (subst h; by rewrite append_maxlen).
    assert (length (items h) ≤ S (length (items (conversation_history self))))%nat.
    { subst h. unfold Deque.append. simpl.
      case_match; rewrite ?length_drop, length_app; simpl; lia. }
    clearbody h.
    destruct (summarization_threshold self <=? Deque.len h); simpl;
      repeat split; try done; lia.
  - repeat split; simpl; try done; lia.
  - unfold prune_context, Deque.len, Py.len, Deque.popleft.
    repeat case_match; simpl; repeat split; try done; simplify_eq; simpl in *;
      try lia.
    + etrans; [apply delete_length_le|done].
    + pose proof (delete_length_le n (items (conversation_history self))).
      lia.
Qed.

(** X1: from any store built by the constructor and after any sequence of
    [add_turn], [clear_history] and [prune_context] calls, the buffer is
    never longer than [max_turns] nor than the number of turns ever added;
    [total_turns] is the number of [add_turn] calls (clearing and pruning do
    not lower it); the summarization counter lies between 0 and
    [total_turns]; and the configuration and creation time are the ones
    given to the constructor. *)
Theorem store_invariant mcl mt th now self ops :
  init mcl mt th now = inr self →
  let self' := run self ops in
  0 ≤ Deque.len (conversation_history self') ≤ max_turns self' ∧
  Deque.len (conversation_history self') ≤ total_turns self' ∧
  total_turns self' = adds ops ∧
  0 ≤ summarization_count self' ≤ total_turns self' ∧
  max_context_length self' = mcl ∧ max_turns self' = mt ∧
  summarization_threshold self' = th ∧ created_at self' = now.
Proof.
  intros Hinit. apply init_inr in Hinit as (Hmt & ->). cbv zeta.
  set (self := mkManager _ _ _ _ _ _ _ _).
  assert (Hgoal :
    store_ok (Z.to_nat mt) (run self ops) ∧
    total_turns (run self ops) = adds ops ∧
    max_context_length (run self ops) = mcl ∧ max_turns (run self ops) = mt ∧
    summarization_threshold (run self ops) = th ∧
    created_at (run self ops) = now).
  { induction ops as [|o ops IH] using rev_ind.
    - unfold store_ok, adds, Py.len. simpl. repeat split; try done; lia.
    - destruct IH as (Hok & Htot & Hmcl & Hmax & Hth & Hnow).
      rewrite run_snoc, adds_snoc.
      destruct (apply_op_store_ok _ _ o Hok)
        as (Hok' & Htot' & Hmcl' & Hmax' & Hth' & Hnow' & _).
      repeat split; try congruence; try apply Hok'. }
  destruct Hgoal as ((_ & Hlen & Htot & Hcount) & Hadds & Hmcl & Hmax & Hth
                     & Hnow).
  unfold Deque.len, buffer, Py.len in *. rewrite Hmax.
  repeat split; try done; lia.
Qed.

(** X2: in a store whose threshold does not exceed its capacity, every
    [add_turn] from the [max(threshold, 1)]-th on summarizes: after [k]
    calls on a new store the counter is [max(0, k - max(0, threshold - 1))],
    and once it is positive the summary is the digest of the current
    buffer. *)
Theorem summarization_retriggers mcl mt th now self calls :
  init mcl mt th now = inr self →
  th ≤ mt →
  let self' := add_turns self calls in
  summarization_count self'
  = Z.max 0 (Py.len calls - Z.max 0 (th - 1)) ∧
  (Z.max 1 th ≤ Py.len calls →
   context_summary self' = digest (buffer self')).
Proof.
  intros Hinit Hth. apply init_inr in Hinit as (Hmt & ->). cbv zeta.
  set (self := mkManager _ _ _ _ _ _ _ _).
  assert (Hcap : within_capacity self) by (unfold within_capacity; simpl; lia).
  induction calls as [|c calls IH] using rev_ind.
  - unfold Py.len. simpl. split; lia.
  - destruct IH as [IHcount IHsum].
    destruct (add_turns_buffer (calls ++ [c]) self Hcap) as (Hbuf' & _).
    assert (Hthr : summarization_threshold (add_turns self calls) = th).
    { clear. induction calls as [|c calls IH] using rev_ind; [done|].
      rewrite add_turns_snoc. destruct c as [[[r c] m] t].
      unfold add_call. by rewrite add_turn_threshold. }
    assert (Hlen :
      Deque.len (Deque.append (turn_of c)
                   (conversation_history (add_turns self calls)))
      = Z.min (Py.len calls + 1) mt).
    { rewrite <- add_call_history, <- add_turns_snoc.
      unfold Deque.len. fold (buffer (add_turns self (calls ++ [c]))).
      rewrite Hbuf'. unfold Py.len.
      rewrite last_n_length, length_app, length_fmap, length_app.
      simpl. lia. }
    rewrite add_turns_snoc. destruct c as [[[r c] m] t].
    unfold add_call, turn_of in *. rewrite add_turn_effect. cbv zeta.
    set (h := Deque.append _ _) in *. rewrite Hthr. clearbody h.
    unfold Py.len, call in *. rewrite length_app. simpl length.
    destruct (Z.leb_spec th (Deque.len h)); simpl.
    + split; [lia|done].
    + split; [lia|]. intros. lia.
Qed.

(** X3: [clear_history] empties the buffer and the summary and reports
    the number of turns removed; it keeps [total_turns], the summarization
    counter and the configuration. Afterwards [get_context] is the empty
    string for every argument, the estimated length is 0 and there is no
    last turn. *)
Theorem clear_history_resets self :
  let self' := fst (clear_history self) in
  buffer self' = [] ∧ context_summary self' = "" ∧
  snd (clear_history self)
  = [ "Cleared " +:+ Py.str_int (Py.len (buffer self))
        +:+ " conversation turns" ] ∧
  total_turns self' = total_turns self ∧
  summarization_count self' = summarization_count self ∧
  max_turns self' = max_turns self ∧
  summarization_threshold self' = summarization_threshold self ∧
  maxlen (conversation_history self') = maxlen (conversation_history self) ∧
  (∀ num_turns include_summary,
     get_context self' num_turns include_summary = "") ∧
  get_context_length self' = 0 ∧
  (∀ role, get_last_turn self' role = None).
Proof.
  cbv zeta. repeat split; try done.
  intros num_turns include_summary. rewrite get_context_lines.
  unfold summary_block, buffer. simpl.
  replace (match num_turns with
           | Some n => Py.slice_from (- n) []
           | None => []
           end) with (@nil Turn)
    by (destruct num_turns;
        [unfold Py.slice_from; case_match; by rewrite drop_nil|done]).
  by destruct include_summary.
Qed.

(** X4: when no turn of the buffer has a shorter content than the oldest
    turn, [prune_context("least_relevant")] leaves the same store as
    [prune_context("oldest")]: it removes the oldest turn. *)
Theorem least_relevant_removes_oldest self t rest :
  buffer self = t :: rest →
  Forall (λ x, Py.len_str (content t) ≤ Py.len_str (content x)) rest →
  fst (prune_context self "least_relevant")
  = fst (prune_context self "oldest") ∧
  buffer (fst (prune_context self "least_relevant")) = rest.
Proof.
  unfold buffer. intros Hbuf Hmin.
  unfold prune_context, Deque.len, Py.len, Deque.popleft. simpl.
  rewrite Hbuf. simpl.
  destruct (min_index_first_min (λ x : Turn, Py.len_str (content x))
              (t :: rest)) as (i & k & Hi & pre & u & post & Hl & Hlen & Hk
                               & Hpre & Hpost); [done|].
  simpl in Hi. injection Hi as Hi. rewrite Hi. clear Hi.
  destruct pre as [|p pre].
  - simpl in Hlen, Hl. subst i. injection Hl as <- <-. simpl.
    unfold Deque.remove_at. rewrite Hbuf. done.
  - exfalso. simpl in Hl. injection Hl as <- ->.
    apply Forall_cons in Hpre as [Hp _].
    rewrite Forall_app, Forall_cons in Hmin. destruct Hmin as (_ & Hu & _).
    lia.
Qed.

(** X5: [get_context(num_turns=n)] renders, after the summary block, the
    last [n] turns of the buffer when [n] is positive and the buffer
    without its first [-n] turns when [n] is zero or negative; without
    [num_turns] it renders every turn. *)
Theorem get_context_selection self num_turns include_summary :
  get_context self num_turns include_summary
  = Py.join Py.nl
      (summary_block self include_summary
       ++ (turn_line <$>
             match num_turns with
             | None => buffer self
             | Some n =>
                 if 0 <? n then last_n (Z.to_nat n) (buffer self)
                 else drop (Z.to_nat (- n)) (buffer self)
             end)).
Proof.
  rewrite get_context_lines. destruct num_turns as [n|]; [|done].
  destruct (Z.ltb_spec 0 n).
  - by rewrite slice_from_last.
  - unfold Py.slice_from. destruct (Z.ltb_spec (- n) 0); [lia|done].
Qed.

(** X6: [get_last_turn()] is the newest turn of the buffer; with a role it
    is the newest turn of that role, and it is [None] exactly when the
    buffer holds no turn of that role. *)
Theorem get_last_turn_spec self (r : string) :
  get_last_turn self None = last (buffer self) ∧
  (∀ t, get_last_turn self (Some r) = Some t ↔
        ∃ pre post,
          buffer self = pre ++ t :: post ∧ role t = r ∧
          Forall (λ x, role x ≠ r) post) ∧
  (get_last_turn self (Some r) = None ↔
   Forall (λ x, role x ≠ r) (buffer self)).
Proof.
  unfold get_last_turn, buffer.
  set (l := items (conversation_history self)). clearbody l.
  assert (Hfind : ∀ l : list Turn,
    match List.find (λ turn, String.eqb (role turn) r) (rev l) with
    | Some t => ∃ pre post, l = pre ++ t :: post ∧ role t = r ∧
                            Forall (λ x, role x ≠ r) post
    | None => Forall (λ x, role x ≠ r) l
    end).
  { clear. induction l as [|x l IH] using rev_ind; simpl; [constructor|].
    rewrite rev_app_distr. simpl.
    destruct (String.eqb_spec (role x) r) as [Heq|Hne].
    - exists l, []. repeat split; [done|constructor].
    - destruct (List.find _ (rev l)) as [t|].
      + destruct IH as (pre & post & -> & Hr & Hpost).
        exists pre, (post ++ [x]). rewrite <- app_assoc. repeat split; [done|].
        apply Forall_app. split; [done|]. by constructor.
      + apply Forall_app. split; [done|]. by constructor. }
  assert (Huniq : ∀ (l pre post pre' post' : list Turn) t t',
    l = pre ++ t :: post → l = pre' ++ t' :: post' →
    role t = r → role t' = r →
    Forall (λ x, role x ≠ r) post → Forall (λ x, role x ≠ r) post' →
    t = t').
  { clear. intros l pre post pre' post' t t' -> Heq Hr Hr' Hpost Hpost'.
    revert pre pre' Heq.
    assert (∀ n (pre pre' : list Turn),
              length post = n →
              pre ++ t :: post = pre' ++ t' :: post' → t = t') as Hn; [|eauto].
    intros n pre pre' _ Heq.
    apply (f_equal (@rev Turn)) in Heq.
    rewrite !rev_app_distr in Heq. simpl in Heq.
    rewrite <- !app_assoc in Heq. simpl in Heq.
    apply Forall_rev in Hpost, Hpost'.
    revert Hpost Hpost' Heq.
    generalize (rev post) as a, (rev post') as b. clear post post'.
    induction a as [|x a IH]; intros [|y b] Ha Hb Heq; simpl in *.
    - by injection Heq.
    - injection Heq as -> _. apply Forall_cons in Hb as [Hb _]. done.
    - injection Heq as -> _. apply Forall_cons in Ha as [Ha _]. done.
    - injection Heq as _ Heq.
      apply Forall_cons in Ha as [_ Ha]. apply Forall_cons in Hb as [_ Hb].
      eauto. }
  specialize (Hfind l).
  split; [by destruct l|]. split.
  - intros t. destruct l as [|x l'] eqn:El.
    + split; [done|]. intros (pre & post & Heq & _). by destruct pre.
    + rewrite <- El in *. clear El x l'.
      destruct (List.find _ (rev l)) as [u|].
      * destruct Hfind as (pre & post & Hl & Hr & Hpost). split.
        -- intros [= <-]. eauto.
        -- intros (pre' & post' & Hl' & Hr' & Hpost'). f_equal.
           eapply Huniq; eauto.
      * split; [done|]. intros (pre & post & -> & Hr & _).
        rewrite Forall_app, Forall_cons in Hfind. tauto.
  - destruct l as [|x l'] eqn:El; [split; constructor|].
    rewrite <- El in *. clear El x l'.
    destruct (List.find _ (rev l)) as [u|]; [|done].
    destruct Hfind as (pre & post & -> & Hr & Hpost). split; [done|].
    rewrite Forall_app, Forall_cons. tauto.
Qed.

End ContextManagerMoreFacts.

(** ** Further properties of the inference engine *)

Section EngineMoreFacts.

Context {Model Any Exn : Type}.
Variable model_generate :
  Model → string → Z → float → gmap string Any → (Exn + string) * Model.
Variable clock : nat → float.
Variable wall : nat → string.

Implicit Types (w : World Model Any) (kwargs : gmap string Any).

Ltac run_eff :=
  autounfold with eff in *;
  unfold mbind, mret, eff_bind, eff_ret in *;
  simpl in *.

(** The three outcomes of a [generate] call: served from the cache; a
    failed call of the model; a successful call of the model. *)
Lemma generate_cases w prompt max_length temperature use_cache kwargs :
  let key := cache_key prompt max_length temperature in
  let self := engine w in
  let call :=
    mkCall prompt (resolved_max_length w max_length)
      (resolved_temperature w temperature) kwargs in
  (∃ cached,
     cache_hit self use_cache key = Some cached ∧
     generate model_generate clock prompt max_length temperature use_cache
       kwargs w = (inr cached, w)) ∨
  (cache_hit self use_cache key = None ∧
   ∃ e model',
     model_generate (model self) prompt (call_max_length call)
       (call_temperature call) kwargs = (inl e, model') ∧
     generate model_generate clock prompt max_length temperature use_cache
       kwargs w
     = (inl e,
        mkWorld
          (mkEngine model' (config self) (inference_stats self)
             (_response_cache self))
          (S (ticks w)) (stdout w) (calls w ++ [call]))) ∨
  (cache_hit self use_cache key = None ∧
   ∃ text model',
     model_generate (model self) prompt (call_max_length call)
       (call_temperature call) kwargs = (inr text, model') ∧
     generate model_generate clock prompt max_length temperature use_cache
       kwargs w
     = (inr text,
        mkWorld
          (mkEngine model' (config self)
             (_update_stats (inference_stats self) text
                (PrimFloat.sub (clock (S (ticks w))) (clock (ticks w))))
             (if use_cache then <[key := text]> (_response_cache self)
              else _response_cache self))
          (S (S (ticks w))) (stdout w) (calls w ++ [call]))).
Proof.
  cbv zeta. unfold resolved_max_length, resolved_temperature.
  run_eff.
  destruct (cache_hit (engine w) use_cache _) as [cached|] eqn:Hhit.
  - left. eauto.
  - right. simpl.
    destruct (model_generate _ _ _ _ _) as [[e|text] model'] eqn:Hcall.
    + left. split; [done|]. by exists e, model'.
    + right. split; [done|]. exists text, model'. split; [done|].
      by destruct use_cache.
Qed.

(** X7: a call that misses the cache and whose model call returns a text
    returns that text, records the invocation with the resolved
    parameters, counts one more request and the words of the text, takes
    the latency from the two clock readings around the model call, and
    stores the text under the key of the call exactly when [use_cache] is
    true. *)
Theorem generate_miss_success w prompt max_length temperature use_cache kwargs
    text model' :
  cache_hit (engine w) use_cache (cache_key prompt max_length temperature)
  = None →
  model_generate (model (engine w)) prompt
    (resolved_max_length w max_length)
    (resolved_temperature w temperature) kwargs
  = (inr text, model') →
  let out :=
    generate model_generate clock prompt max_length temperature use_cache
      kwargs w in
  let stats := inference_stats (engine w) in
  let stats' := inference_stats (engine (snd out)) in
  fst out = inr text ∧
  calls (snd out)
  = calls w
    ++ [mkCall prompt (resolved_max_length w max_length)
          (resolved_temperature w temperature) kwargs] ∧
  total_requests stats' = total_requests stats + 1 ∧
  total_tokens_generated stats'
  = total_tokens_generated stats + Py.len (Py.split text) ∧
  stats'
  = _update_stats stats text
      (PrimFloat.sub (clock (S (ticks w))) (clock (ticks w))) ∧
  _response_cache (engine (snd out))
  = (if use_cache
     then <[cache_key prompt max_length temperature := text]>
            (_response_cache (engine w))
     else _response_cache (engine w)) ∧
  ticks (snd out) = S (S (ticks w)) ∧ stdout (snd out) = stdout w.
Proof.
  intros Hmiss Hcall. cbv zeta.
  destruct (generate_cases w prompt max_length temperature use_cache kwargs)
    as [(cached & Hhit & _)|[(_ & e & m & Hfail & _)
                             |(_ & text' & m & Hok & Hrun)]];
    simpl in *; try congruence.
  rewrite Hcall in Hok. injection Hok as <- <-. by rewrite Hrun.
Qed.

Lemma generate_cache_facts w prompt max_length temperature use_cache kwargs :
  let out :=
    generate model_generate clock prompt max_length temperature use_cache
      kwargs w in
  let cache := _response_cache (engine w) in
  let cache' := _response_cache (engine (snd out)) in
  config (engine (snd out)) = config (engine w) ∧
  stdout (snd out) = stdout w ∧
  entries_kept cache cache' ∧
  (use_cache = false → cache' = cache) ∧
  (size cache' ≤ S (size cache))%nat ∧
  (∀ text, fst out = inr text → use_cache = true →
     cache' !! cache_key prompt max_length temperature = Some text).
Proof.
  cbv zeta.
  destruct (generate_cases w prompt max_length temperature use_cache kwargs)
    as [(cached & Hhit & Hrun)|[(Hmiss & e & m & _ & Hrun)
                                |(Hmiss & text & m & _ & Hrun)]];
    rewrite Hrun; simpl in *; unfold entries_kept.
  - repeat split; try done; [lia|].
    intros text [= <-] ->. done.
  - repeat split; try done. lia.
  - destruct use_cache; simpl in *.
    + repeat split; try done.
      * intros k v Hk. rewrite lookup_insert_ne; [done|]. congruence.
      * rewrite map_size_insert_None by done. lia.
      * intros text' [= <-] _. apply lookup_insert_eq.
    + repeat split; try done. lia.
Qed.

(** X8: no [generate] call changes or removes an entry of the cache or
    touches the configuration; a call adds at most one entry; with
    [use_cache] false the cache is left as it is; and after a call with
    [use_cache] that returned a text, that text is the entry of the call's
    key. *)
Theorem generate_cache_growth w prompt max_length temperature use_cache
    kwargs :
  let out :=
    generate model_generate clock prompt max_length temperature use_cache
      kwargs w in
  let cache := _response_cache (engine w) in
  let cache' := _response_cache (engine (snd out)) in
  config (engine (snd out)) = config (engine w) ∧
  entries_kept cache cache' ∧
  (use_cache = false → cache' = cache) ∧
  (size cache' ≤ S (size cache))%nat ∧
  (∀ text, fst out = inr text → use_cache = true →
     cache' !! cache_key prompt max_length temperature = Some text).
Proof.
  pose proof (generate_cache_facts w prompt max_length temperature use_cache
                kwargs) as H.
  cbv zeta in *. tauto.
Qed.

(** One call in the accounting of requests: the invocations recorded grow
    by the requests counted plus one for a failed call. *)
Lemma generate_accounting w prompt max_length temperature use_cache kwargs :
  let out :=
    generate model_generate clock prompt max_length temperature use_cache
      kwargs w in
  let failed := match fst out with inl _ => 1 | inr _ => 0 end in
  total_requests (inference_stats (engine (snd out))) + failed
  + Py.len (calls w)
  = total_requests (inference_stats (engine w)) + Py.len (calls (snd out)) ∧
  Py.len (calls w) ≤ Py.len (calls (snd out)) ≤ Py.len (calls w) + 1 ∧
  total_tokens_generated (inference_stats (engine w))
  ≤ total_tokens_generated (inference_stats (engine (snd out))).
Proof.
  cbv zeta.
  destruct (generate_cases w prompt max_length temperature use_cache kwargs)
    as [(cached & Hhit & Hrun)|[(Hmiss & e & m & _ & Hrun)
                                |(Hmiss & text & m & _ & Hrun)]];
    rewrite Hrun; simpl; unfold Py.len; rewrite ?length_app; simpl; lia.
Qed.

(** X9: over any sequence of [generate] calls, made one after the other
    whatever their outcomes, every invocation of the model is either
    counted in [total_requests] or surfaced as a failed call: the growth of
    [total_requests] plus the number of failures is the number of
    invocations. There is one outcome per call and at most one invocation
    per call, and [total_tokens_generated] never decreases. *)
Theorem requests_accounting requests w :
  let out := serve_all model_generate clock requests w in
  length (fst out) = length requests ∧
  total_requests (inference_stats (engine (snd out))) + failures (fst out)
  = total_requests (inference_stats (engine w))
    + (Py.len (calls (snd out)) - Py.len (calls w)) ∧
  Py.len (calls w) ≤ Py.len (calls (snd out))
  ≤ Py.len (calls w) + Py.len requests ∧
  total_tokens_generated (inference_stats (engine w))
  ≤ total_tokens_generated (inference_stats (engine (snd out))).
Proof.
  cbv zeta. revert w.
  induction requests as [|r requests IH]; intros w; simpl.
  - unfold failures, Py.len. simpl. lia.
  - unfold serve.
    pose proof (generate_accounting w (req_prompt r) (req_max_length r)
                  (req_temperature r) (req_use_cache r) (req_kwargs r)) as H.
    cbv zeta in H.
    destruct (generate model_generate clock _ _ _ _ _ w) as [o w1].
    specialize (IH w1).
    destruct (serve_all model_generate clock requests w1) as [os w2].
    simpl in *. unfold failures, Py.len in *. simpl.
    destruct o; simpl; lia.
Qed.

(** What a run of the loop of [batch_generate] that ends normally has
    done. *)
Lemma batch_loop_results max_length temperature kwargs prompts :
  ∀ idx total acc w results w',
    batch_loop model_generate clock idx total prompts max_length temperature
      kwargs acc w = (inr results, w') →
    ∃ rs,
      results = acc ++ rs ∧
      Forall2
        (λ p r, _response_cache (engine w')
                !! cache_key p max_length temperature = Some r)
        prompts rs ∧
      entries_kept (_response_cache (engine w)) (_response_cache (engine w')) ∧
      stdout w' = stdout w ++ progress_lines idx total (length prompts).
Proof.
  induction prompts as [|p prompts IH]; intros idx total acc w results w' Hrun.
  - simpl in Hrun. injection Hrun as <- <-.
    exists []. rewrite !app_nil_r. repeat split; [constructor|].
    by intros k v.
  - rewrite (batch_loop_cons model_generate clock) in Hrun.
    pose proof (generate_cache_facts w p max_length temperature true kwargs)
      as (_ & Hout & Hkept & _ & _ & Hkey).
    destruct (generate model_generate clock p _ _ _ _ w) as [[e|r] w1];
      [done|]. simpl in Hout, Hkept, Hkey.
    apply IH in Hrun as (rs & -> & Hall & Hkept' & Hout').
    exists (r :: rs). rewrite <- app_assoc. split; [done|].
    assert (Hw1 : ∀ w2 : World Model Any,
              w2 = (if (idx + 1) mod 10 =? 0
                    then snd (print (Exn:=Exn)
                                ("  Processed " +:+ Py.str_int (idx + 1)
                                   +:+ "/" +:+ Py.str_int total
                                   +:+ " prompts") w1)
                    else w1) →
              engine w2 = engine w1 ∧
              stdout w2
              = stdout w1
                ++ (if (idx + 1) mod 10 =? 0
                    then [ "  Processed " +:+ Py.str_int (idx + 1) +:+ "/"
                             +:+ Py.str_int total +:+ " prompts" ]
                    else [])).
    { intros w2 ->. destruct ((idx + 1) mod 10 =? 0); simpl; [done|].
      by rewrite app_nil_r. }
    destruct (Hw1 _ eq_refl) as [Heng Hstd].
    rewrite Heng in Hkept'. rewrite Hstd, Hout in Hout'.
    repeat split.
    + constructor; [|done]. apply Hkept', Hkey; done.
    + intros k v Hk. by apply Hkept', Hkept.
    + rewrite Hout'. simpl. by rewrite <- app_assoc.
Qed.


(** X11: a batch that ends normally has printed the header with the
    number of prompts, one progress line after every tenth prompt and the
    closing line, and nothing else. *)
Theorem batch_generate_output w prompts max_length temperature kwargs
    results w' :
  batch_generate model_generate clock prompts max_length temperature kwargs w
  = (inr results, w') →
  stdout w'
  = stdout w
    ++ [ "Processing batch of " +:+ Py.str_int (Py.len prompts)
           +:+ " prompts..." ]
    ++ progress_lines 0 (Py.len prompts) (length prompts)
    ++ [ "Batch processing complete!" ].
Proof.
  rewrite (batch_generate_unfold model_generate clock). intros Hrun.
  destruct (batch_loop model_generate clock _ _ _ _ _ _ _ _)
    as [[e|rs] w1] eqn:Hloop; [done|].
  injection Hrun as <- <-.
  apply batch_loop_results in Hloop as (rs' & _ & _ & _ & Hout).
  simpl in *. rewrite Hout. by rewrite <- !app_assoc.
Qed.

(** X12: [clear_cache] empties the cache, reports the number of entries
    removed and keeps the statistics; the next [generate] call, whatever
    its arguments, invokes the model. *)
Theorem clear_cache_forces_model_call w prompt max_length temperature
    use_cache kwargs :
  let w' := snd (clear_cache (Exn:=Exn) w) in
  fst (clear_cache (Exn:=Exn) w) = inr () ∧
  _response_cache (engine w') = ∅ ∧
  inference_stats (engine w') = inference_stats (engine w) ∧
  stdout w'
  = stdout w
    ++ [ "Cache cleared ("
           +:+ Py.str_int (Z.of_nat (size (_response_cache (engine w))))
           +:+ " entries removed)" ] ∧
  calls (snd (generate model_generate clock prompt max_length temperature
                use_cache kwargs w'))
  = calls w
    ++ [mkCall prompt (resolved_max_length w max_length)
          (resolved_temperature w temperature) kwargs].
Proof.
  cbv zeta. repeat split.
  set (w' := snd (clear_cache w)).
  destruct (generate_cases w' prompt max_length temperature use_cache kwargs)
    as [(cached & Hhit & _)|[(_ & e & m & _ & Hrun)
                             |(_ & text & m & _ & Hrun)]].
  - unfold cache_hit in Hhit. subst w'. simpl in Hhit.
    destruct use_cache; [by rewrite lookup_empty in Hhit|done].
  - by rewrite Hrun.
  - by rewrite Hrun.
Qed.

(** X13: [reset_statistics] zeroes the three statistics and keeps the
    cache: a call whose key is cached is still served from the cache, and
    then [total_requests] stays 0. *)
Theorem reset_statistics_keeps_cache w prompt max_length temperature kwargs
    cached :
  _response_cache (engine w) !! cache_key prompt max_length temperature
  = Some cached →
  let w' := snd (reset_statistics (Exn:=Exn) w) in
  inference_stats (engine w') = initial_stats ∧
  _response_cache (engine w') = _response_cache (engine w) ∧
  stdout w' = stdout w ++ [ "Statistics reset" ] ∧
  generate model_generate clock prompt max_length temperature true kwargs w'
  = (inr cached, w') ∧
  total_requests (inference_stats (engine w')) = 0.
Proof.
  intros Hhit. cbv zeta. repeat split.
  apply generate_served. done.
Qed.

(** One round of the loop of [generate_with_alternatives]. *)
Lemma alternatives_loop_step i n prompt max_length kwargs acc w :
  alternatives_loop model_generate clock i (S n) prompt max_length kwargs
    acc w
  = match generate model_generate clock prompt max_length
            (Some (PrimFloat.add
                     (InferenceConfig.temperature (config (engine w)))
                     (PrimFloat.mul (PyFloat.of_int i) 0.1)))
            false kwargs w with
    | (inl e, w') => (inl e, w')
    | (inr result, w') =>
        alternatives_loop model_generate clock (i + 1) n prompt max_length
          kwargs (acc ++ [result]) w'
    end.
Proof.
  simpl. unfold mbind at 1. unfold eff_bind at 1. simpl.
  unfold mbind at 1. unfold eff_bind at 1.
  by destruct (generate _ _ _ _ _ _ _ _) as [[e|r] w'].
Qed.

(** What the loop of [generate_with_alternatives] does. *)
Lemma alternatives_loop_spec prompt max_length kwargs n :
  ∀ i acc w,
    let out :=
      alternatives_loop model_generate clock i n prompt max_length kwargs
        acc w in
    _response_cache (engine (snd out)) = _response_cache (engine w) ∧
    config (engine (snd out)) = config (engine w) ∧
    stdout (snd out) = stdout w ∧
    (∀ alternatives, fst out = inr alternatives →
       ∃ rs,
         alternatives = acc ++ rs ∧ length rs = n ∧
         total_requests (inference_stats (engine (snd out)))
         = total_requests (inference_stats (engine w)) + Z.of_nat n ∧
         calls (snd out)
         = calls w
           ++ (alternative_call (config (engine w)) prompt max_length kwargs
                 <$> seqZ i (Z.of_nat n))).
Proof.
  induction n as [|n IH]; intros i acc w; cbv zeta.
  - simpl. repeat split. intros alts [= <-]. exists [].
    rewrite !app_nil_r. repeat split; lia.
  - rewrite alternatives_loop_step.
    set (temp := PrimFloat.add _ _).
    destruct (generate_cases w prompt max_length (Some temp) false kwargs)
      as [(cached & Hhit & _)|[(_ & e & m & _ & Hrun)
                               |(_ & text & m & _ & Hrun)]];
      [done| |]; rewrite Hrun; clear Hrun.
    + simpl. repeat split. done.
    + set (w1 := mkWorld _ _ _ _).
      specialize (IH (i + 1) (acc ++ [text]) w1). cbv zeta in IH.
      destruct IH as (Hcache & Hcfg & Hout & Hres).
      split; [done|]. split; [done|]. split; [done|].
      intros alts Halts. destruct (Hres alts Halts) as (rs & -> & Hlen & Htot
                                                         & Hcalls).
      exists (text :: rs). rewrite <- app_assoc. split; [done|].
      split; [simpl; lia|]. split.
      * rewrite Htot. simpl. lia.
      * rewrite Hcalls. subst w1. cbn [calls engine config].
        rewrite <- app_assoc. f_equal.
        rewrite (seqZ_cons i) by lia.
        replace (Z.pred (Z.of_nat (S n))) with (Z.of_nat n) by lia.
        replace (Z.succ i) with (i + 1) by lia. by rewrite fmap_cons.
Qed.

(** X14: [generate_with_alternatives] never reads or writes the cache,
    whether it returns or raises. When it returns, it returns
    [num_alternatives] texts (none for a negative number), has counted as
    many requests, and has invoked the model once per alternative with the
    temperature [config.temperature + i * 0.1] for [i = 0, 1, ...] (the
    configured temperature itself where that sum is zero). *)
Theorem generate_with_alternatives_spec w prompt num_alternatives max_length
    kwargs :
  let out :=
    generate_with_alternatives model_generate clock prompt num_alternatives
      max_length kwargs w in
  let n := Z.to_nat num_alternatives in
  _response_cache (engine (snd out)) = _response_cache (engine w) ∧
  (∀ alternatives, fst out = inr alternatives →
     length alternatives = n ∧
     total_requests (inference_stats (engine (snd out)))
     = total_requests (inference_stats (engine w)) + Z.of_nat n ∧
     calls (snd out)
     = calls w
       ++ (alternative_call (config (engine w)) prompt max_length kwargs
             <$> seqZ 0 (Z.of_nat n))).
Proof.
  cbv zeta. unfold generate_with_alternatives.
  pose proof (alternatives_loop_spec prompt max_length kwargs
                (Z.to_nat num_alternatives) 0 [] w) as H.
  cbv zeta in H. destruct H as (Hcache & _ & _ & Hres).
  split; [done|]. intros alts Halts.
  destruct (Hres alts Halts) as (rs & -> & Hlen & Htot & Hcalls).
  simpl. done.
Qed.

(** What the loop of [interactive_generate] returns. *)
Lemma interactive_loop_spec max_length temperature use_cache kwargs n :
  ∀ turn current acc w conversation w',
    interactive_loop model_generate clock wall turn n current max_length
      temperature use_cache kwargs acc w
    = (inr conversation, w') →
    ∃ rest,
      conversation = acc ++ rest ∧ length rest = n ∧
      chained turn current rest.
Proof.
  induction n as [|n IH]; intros turn current acc w conversation w' Hrun.
  - simpl in Hrun. injection Hrun as <- <-. exists [].
    by rewrite app_nil_r.
  - simpl in Hrun. unfold mbind at 1 in Hrun. unfold eff_bind at 1 in Hrun.
    destruct (generate model_generate clock current _ _ _ _ w)
      as [[e|response] w1]; [done|].
    unfold mbind at 1 in Hrun. unfold eff_bind at 1 in Hrun.
    simpl in Hrun.
    apply IH in Hrun as (rest & -> & Hlen & Hchain).
    eexists (_ :: rest). rewrite <- app_assoc. split; [done|].
    split; [simpl; lia|]. simpl. done.
Qed.

(** X15: when [interactive_generate] returns, it returns [num_turns]
    entries (none for a negative number), numbered from 1; the first
    prompt is the initial prompt and every later prompt is the previous
    prompt, a space and the previous response, so the prompt grows with
    every turn. *)
Theorem interactive_generate_chain w initial_prompt num_turns max_length
    temperature use_cache kwargs conversation w' :
  interactive_generate model_generate clock wall initial_prompt num_turns
    max_length temperature use_cache kwargs w
  = (inr conversation, w') →
  length conversation = Z.to_nat num_turns ∧
  chained 0 initial_prompt conversation ∧
  (num_turns ≤ 0 → conversation = [] ∧ w' = w).
Proof.
  unfold interactive_generate. intros Hrun.
  pose proof Hrun as Hrun'.
  apply interactive_loop_spec in Hrun as (rest & -> & Hlen & Hchain).
  simpl. split; [done|]. split; [done|].
  intros Hle. replace (Z.to_nat num_turns) with 0%nat in * by lia.
  simpl in Hrun'. by injection Hrun' as <- <-.
Qed.

(** X16: [get_statistics] of the engine never divides by zero: while no
    request is counted, [tokens_per_request] is the integer 0; and
    [cache_size] is the number of entries of the cache. *)
Theorem engine_statistics_guarded (self : InferenceEngine Model) :
  engine_statistics self ≠ inl ZeroDivisionError ∧
  (total_requests (inference_stats self) ≤ 0 →
   engine_statistics self
   = inr (EngineStatistics.mk (total_requests (inference_stats self))
            (total_tokens_generated (inference_stats self))
            (average_latency (inference_stats self))
            (Z.of_nat (size (_response_cache self))) (inl 0))) ∧
  (∀ s, engine_statistics self = inr s →
     EngineStatistics.cache_size s = Z.of_nat (size (_response_cache self)) ∧
     EngineStatistics.total_requests s
     = total_requests (inference_stats self)).
Proof.
  unfold engine_statistics, PyArith.truediv.
  destruct (Z.ltb_spec 0 (total_requests (inference_stats self))).
  - destruct (Z.eqb_spec (total_requests (inference_stats self)) 0); [lia|].
    repeat split; [|lia|..]; repeat case_match; try done;
      intros; simplify_eq; done.
  - repeat split; try done; intros; simplify_eq; done.
Qed.

End EngineMoreFacts.

(** ** System messages, statistics and the chatbot *)

(** Integer division fails with [ZeroDivisionError] exactly for a zero
    divisor. *)
Lemma truediv_zero_division (a b : Z) :
  PyArith.truediv a b = inl ZeroDivisionError ↔ b = 0.
Proof.
  unfold PyArith.truediv.
  destruct (Z.eqb_spec b 0); [done|].
  repeat case_match; split; intros; simplify_eq; done.
Qed.

Section SystemMessageFacts.

Context {Meta : Type}.
Variable of_str : string → Meta.

Implicit Types (self : ContextManager Meta).

(** The turn that [add_system_message] creates. *)
Lemma add_system_message_history self message now :
  conversation_history (fst (add_system_message of_str self message now))
  = Deque.append
      (mkTurn "system" message {[ "type" := of_str "system_instruction" ]}
         now)
      (conversation_history self).
Proof. unfold add_system_message. by rewrite add_turn_history. Qed.

(** After an append to a deque of positive capacity the new item is the
    last one. *)
Lemma append_snoc {A} (x : A) (d : deque A) :
  (0 < maxlen d)%nat → ∃ pre, items (Deque.append x d) = pre ++ [x].
Proof.
  intros Hcap. unfold Deque.append. simpl.
  destruct (Nat.ltb_spec (maxlen d) (length (items d ++ [x]))).
  - destruct (items d) as [|y l]; simpl in *; [lia|]. by exists l.
  - by exists (items d).
Qed.

(** X17: in a store of positive capacity, [add_system_message] adds a turn
    of role [system] carrying the message and the metadata
    [{"type": "system_instruction"}]; it is then the last turn, also among
    the turns of role [system], and [total_turns] has grown by one. *)
Theorem add_system_message_last self message now :
  (0 < maxlen (conversation_history self))%nat →
  let self' := fst (add_system_message of_str self message now) in
  let turn :=
    mkTurn "system" message {[ "type" := of_str "system_instruction" ]} now in
  get_last_turn self' None = Some turn ∧
  get_last_turn self' (Some "system") = Some turn ∧
  total_turns self' = total_turns self + 1.
Proof.
  intros Hcap. cbv zeta. unfold get_last_turn.
  rewrite add_system_message_history.
  destruct (append_snoc
              (mkTurn "system" message
                 {[ "type" := of_str "system_instruction" ]} now)
              (conversation_history self) Hcap) as [pre ->].
  split; [|split].
  - destruct (pre ++ [_]) as [|y l] eqn:E; [by destruct pre|].
    rewrite <- E. apply last_snoc.
  - destruct (pre ++ [_]) as [|y l] eqn:E; [by destruct pre|].
    rewrite <- E, rev_app_distr. done.
  - unfold add_system_message. by rewrite add_turn_total_turns.
Qed.

(** X18: [get_statistics] raises [ZeroDivisionError] exactly for a store
    whose [max_context_length] is 0. When it returns, [current_turns] is
    the length of the buffer, [total_turns] the number of turns ever
    added, [context_length_tokens] the estimated length, and
    [has_summary] tells whether the summary is non-empty. *)
Theorem get_statistics_spec self :
  (get_statistics self = inl ZeroDivisionError ↔ max_context_length self = 0) ∧
  (∀ s, get_statistics self = inr s →
     Statistics.total_turns s = total_turns self ∧
     Statistics.current_turns s = Py.len (buffer self) ∧
     Statistics.context_length_tokens s = get_context_length self ∧
     Statistics.summarization_count s = summarization_count self ∧
     (Statistics.has_summary s = true ↔ context_summary self ≠ "")).
Proof.
  pose proof (truediv_zero_division (get_context_length self)
                (max_context_length self)) as Hdiv.
  unfold get_statistics.
  destruct (PyArith.truediv _ _) as [e|ratio]; split.
  - rewrite <- Hdiv. split; congruence.
  - done.
  - rewrite <- Hdiv. split; congruence.
  - intros s [= <-]. simpl. repeat split; try done;
      destruct (String.eqb_spec (context_summary self) ""); simpl;
      congruence.
Qed.

End SystemMessageFacts.

Section ChatbotFacts.

Context {Model Any Meta Exn : Type}.
Variable model_generate :
  Model → string → Z → float → gmap string Any → (Exn + string) * Model.
Variable clock : nat → float.
Variable of_str : string → Meta.

Implicit Types (self : AGIChatbot Model Any Meta).

(** X19: [chat] first records the user turn, then asks the engine, with
    [max_length = 256], [temperature = 0.7] and the cache on, for the
    rendering of the last ten turns followed by the line [assistant:].
    When the engine returns, the response is recorded as a turn of the
    assistant after the user turn, so [total_turns] has grown by two, and
    the response is cached under the key of that prompt. When the model
    raises, the exception propagates and the store keeps the user turn
    without a response, while the cache and the statistics of the engine
    are as before. *)
Theorem chat_spec self user_message now_user now_assistant :
  let store := context_manager self in
  let store1 := fst (add_turn store "user" user_message None now_user) in
  let prompt :=
    get_context store1 (Some 10) true +:+ Py.nl +:+ "assistant:" in
  let out :=
    chat model_generate clock self user_message now_user now_assistant in
  name (snd out) = name self ∧
  (∀ response, fst out = inr response →
     context_manager (snd out)
     = fst (add_turn store1 "assistant" response None now_assistant) ∧
     conversation_history (context_manager (snd out))
     = Deque.append (new_turn "assistant" response None now_assistant)
         (Deque.append (new_turn "user" user_message None now_user)
            (conversation_history store)) ∧
     total_turns (context_manager (snd out)) = total_turns store + 2 ∧
     _response_cache (engine (inference_engine (snd out)))
     !! cache_key prompt (Some 256) (Some 0.7%float)
     = Some response) ∧
  (∀ e, fst out = inl e →
     context_manager (snd out) = store1 ∧
     total_turns (context_manager (snd out)) = total_turns store + 1 ∧
     calls (inference_engine (snd out))
     = calls (inference_engine self)
       ++ [mkCall prompt 256 0.7%float ∅] ∧
     _response_cache (engine (inference_engine (snd out)))
     = _response_cache (engine (inference_engine self)) ∧
     inference_stats (engine (inference_engine (snd out)))
     = inference_stats (engine (inference_engine self))).
Proof.
  cbv zeta. unfold chat.
  destruct (add_turn (context_manager self) "user" user_message None now_user)
    as [store1 out1] eqn:Hadd.
  assert (Hstore1 : store1
                    = fst (add_turn (context_manager self) "user"
                             user_message None now_user))
    by (by rewrite Hadd).
  simpl fst.
  set (prompt := get_context store1 (Some 10) true +:+ Py.nl +:+ "assistant:").
  set (w := emit out1 (inference_engine self)).
  pose proof (generate_cache_facts model_generate clock w prompt (Some 256)
                (Some 0.7%float) true ∅) as (_ & _ & _ & _ & _ & Hkey).
  destruct (generate_cases model_generate clock w prompt (Some 256)
              (Some 0.7%float) true ∅)
    as [(cached & Hhit & Hrun)|[(Hmiss & e & m & _ & Hrun)
                                |(Hmiss & text & m & _ & Hrun)]];
    rewrite Hrun in *; simpl in Hkey |- *.
  - destruct (add_turn store1 "assistant" cached None now_assistant)
      as [store2 out2] eqn:Hadd2. simpl.
    split; [done|]. split; [|done].
    intros response [= <-].
    assert (Hstore2 : store2
                      = fst (add_turn store1 "assistant" cached None
                               now_assistant)) by (by rewrite Hadd2).
    split; [done|]. rewrite Hstore2, Hstore1.
    rewrite !add_turn_history, !add_turn_total_turns.
    split; [done|]. split; [lia|]. by apply Hkey.
  - split; [done|]. split; [done|].
    intros e' [= <-]. rewrite Hstore1, add_turn_total_turns.
    repeat split.
  - destruct (add_turn store1 "assistant" text None now_assistant)
      as [store2 out2] eqn:Hadd2. simpl.
    split; [done|]. split; [|done].
    intros response [= <-].
    assert (Hstore2 : store2
                      = fst (add_turn store1 "assistant" text None
                               now_assistant)) by (by rewrite Hadd2).
    split; [done|]. rewrite Hstore2, Hstore1.
    rewrite !add_turn_history, !add_turn_total_turns.
    split; [done|]. split; [lia|]. by apply Hkey.
Qed.

(** X20: [reset_conversation] on a chatbot whose store has a positive
    capacity leaves a buffer that holds only the system message of the
    chatbot; [total_turns] is not reset but grows by one; the engine, its
    cache and its statistics are untouched. *)
Theorem reset_conversation_spec self now :
  (0 < maxlen (conversation_history (context_manager self)))%nat →
  let self' := reset_conversation of_str self now in
  buffer (context_manager self')
  = [ mkTurn "system" (system_message (name self))
        {[ "type" := of_str "system_instruction" ]} now ] ∧
  total_turns (context_manager self')
  = total_turns (context_manager self) + 1 ∧
  name self' = name self ∧
  engine (inference_engine self') = engine (inference_engine self) ∧
  calls (inference_engine self') = calls (inference_engine self).
Proof.
  intros Hcap. cbv zeta. unfold reset_conversation.
  destruct (clear_history (context_manager self)) as [store0 out0] eqn:Hclr.
  unfold clear_history in Hclr. injection Hclr as <- <-.
  unfold _setup_system_prompt. cbn [name context_manager inference_engine].
  destruct (add_system_message of_str _ _ now) as [store out] eqn:Hadd.
  apply (f_equal fst) in Hadd. cbn [fst] in Hadd. subst store.
  cbn [name context_manager inference_engine]. unfold buffer.
  rewrite add_system_message_history.
  unfold add_system_message at 1. rewrite add_turn_total_turns.
  repeat split. unfold Deque.append. simpl.
  destruct (Nat.ltb_spec (maxlen (conversation_history (context_manager self)))
              1); [lia|done].
Qed.

End ChatbotFacts.

(** ** The cache key separates its three parts *)

Lemma no_underscore_app (a b : string) :
  no_underscore (a +:+ b) = no_underscore a && no_underscore b.
Proof.
  induction a as [|c a IH]; simpl; [done|].
  by rewrite IH, andb_assoc.
Qed.

Lemma no_underscore_substring (s : string) :
  no_underscore s = true →
  ∀ n m, no_underscore (String.substring n m s) = true.
Proof.
  induction s as [|c s IH]; intros Hs n m.
  - by destruct n, m.
  - simpl in Hs. apply andb_true_iff in Hs as [Hc Hs].
    destruct n as [|n], m as [|m]; simpl; try done; try by apply IH.
    rewrite Hc. simpl. by apply IH.
Qed.

Lemma no_underscore_zeros (n : nat) : no_underscore (PyFloat.zeros n) = true.
Proof. induction n as [|n IH]; simpl; done. Qed.

Lemma no_underscore_uint (d : Decimal.uint) :
  no_underscore (NilEmpty.string_of_uint d) = true.
Proof. induction d; simpl; done. Qed.

Lemma no_underscore_str_int (n : Z) : no_underscore (Py.str_int n) = true.
Proof.
  unfold Py.str_int, NilZero.string_of_int, NilZero.string_of_uint.
  destruct (Z.to_int n) as [d|d]; destruct d; simpl;
    try done; apply no_underscore_uint.
Qed.

Lemma no_underscore_layout (digits : string) (decpt : Z) :
  no_underscore digits = true →
  no_underscore (PyFloat.layout digits decpt) = true.
Proof.
  intros Hd. unfold PyFloat.layout.
  repeat case_match; subst;
    rewrite ?no_underscore_app, ?no_underscore_zeros, ?no_underscore_str_int,
      ?no_underscore_substring by done;
    simpl in *; rewrite ?no_underscore_app, ?no_underscore_str_int;
    simpl; rewrite ?Hd; try done.
  all: apply andb_true_iff in Hd as [_ Hd]; try done.
  all: apply andb_true_iff in Hd as [-> ->]; done.
Qed.

Lemma no_underscore_float_str (x : float) :
  no_underscore (PyFloat.str x) = true.
Proof.
  unfold PyFloat.str.
  destruct (Prim2SF x) as [s|s| |s m e]; try (by destruct s); [done|].
  unfold PyFloat.shortest.
  destruct (PyFloat.shortest_from _ _ _ _ _) as [n p].
  destruct (PyFloat.strip_zeros _ _ _) as [n' p'].
  rewrite no_underscore_app, no_underscore_layout
    by apply no_underscore_str_int.
  by destruct s.
Qed.

Lemma no_underscore_fmt_int (x : option Z) : no_underscore (fmt_int x) = true.
Proof. destruct x; [apply no_underscore_str_int|done]. Qed.

Lemma no_underscore_fmt_float (x : option float) :
  no_underscore (fmt_float x) = true.
Proof. destruct x; [apply no_underscore_float_str|done]. Qed.

Lemma string_app_nil_l (s : string) : "" +:+ s = s.
Proof. reflexivity. Qed.

Lemma string_app_cons (c : ascii) (a b : string) :
  String c a +:+ b = String c (a +:+ b).
Proof. reflexivity. Qed.

(** A string is cut in one way only at its last underscore. *)
Lemma split_at_last_underscore (p q a b : string) :
  no_underscore a = true → no_underscore b = true →
  p +:+ "_" +:+ a = q +:+ "_" +:+ b → p = q ∧ a = b.
Proof.
  intros Ha Hb. revert q.
  induction p as [|c p IH]; intros [|d q] Heq;
    rewrite ?string_app_nil_l, ?string_app_cons, ?string_app_nil_l in Heq.
  - by injection Heq as ->.
  - injection Heq as Hd Heq. subst a.
    rewrite no_underscore_app in Ha. cbn [no_underscore] in Ha.
    rewrite andb_true_iff in Ha. destruct Ha as [_ Ha]. done.
  - injection Heq as Hc Heq. subst b.
    rewrite no_underscore_app in Hb. cbn [no_underscore] in Hb.
    rewrite andb_true_iff in Hb. destruct Hb as [_ Hb]. done.
  - injection Heq as -> Heq. destruct (IH _ Heq) as [-> ->]. done.
Qed.

Lemma string_app_assoc (a b c : string) : (a +:+ b) +:+ c = a +:+ b +:+ c.
Proof.
  induction a as [|x a IH]; [done|]. by rewrite !string_app_cons, IH.
Qed.

(** [str] is one-to-one on the integers. *)
Lemma str_int_inj (n n' : Z) : Py.str_int n = Py.str_int n' → n = n'.
Proof.
  unfold Py.str_int. intros Heq.
  assert (Hparse : ∀ z, NilZero.int_of_string
                          (NilZero.string_of_int (Z.to_int z))
                        = Some (Z.to_int z)).
  { intros z. apply NilZero.isi; destruct z; simpl; try done;
      intros [= H]; by apply Stdlib.Numbers.DecimalPos.Unsigned.to_uint_nonnil in H. }
  apply Stdlib.Numbers.DecimalZ.to_int_inj.
  pose proof (Hparse n) as Hn. rewrite Heq, Hparse in Hn. congruence.
Qed.

Lemma fmt_int_inj (x y : option Z) : fmt_int x = fmt_int y → x = y.
Proof.
  destruct x as [n|], y as [n'|]; simpl; intros Heq; try done.
  - by rewrite (str_int_inj _ _ Heq).
  - destruct (str_int_head n) as (c & rest & Hs & Hc).
    rewrite Hs in Heq. injection Heq as -> _. done.
  - destruct (str_int_head n') as (c & rest & Hs & Hc).
    rewrite Hs in Heq. injection Heq as <- _. done.
Qed.

(** X21: two calls have the same cache key only if they have the same
    prompt, the same [max_length] argument and [temperature] arguments
    that print alike; in particular underscores in a prompt never make
    two different prompts share an entry. *)
Theorem cache_key_separates prompt max_length temperature prompt' max_length'
    temperature' :
  cache_key prompt max_length temperature
  = cache_key prompt' max_length' temperature' →
  prompt = prompt' ∧ max_length = max_length' ∧
  fmt_float temperature = fmt_float temperature'.
Proof.
  unfold cache_key. intros Heq.
  assert (Hform : ∀ p m t : string,
            p +:+ "_" +:+ m +:+ "_" +:+ t = (p +:+ "_" +:+ m) +:+ "_" +:+ t)
    by (intros; by rewrite !string_app_assoc).
  rewrite !Hform in Heq.
  apply split_at_last_underscore in Heq as [Heq Ht];
    try apply no_underscore_fmt_float.
  apply split_at_last_underscore in Heq as [Hp Hm];
    try apply no_underscore_fmt_int.
  by apply fmt_int_inj in Hm.
Qed.

(** ** Near-capacity check *)

Section ContextFullFacts.

Context {Any : Type}.

Implicit Types (self : ContextManager Any).

(** The comparison of an integer with a float grows with the integer. *)
Lemma int_gt_float_mono (n n' : Z) (x : float) :
  n ≤ n' →
  PyArith.int_gt_float n x = true → PyArith.int_gt_float n' x = true.
Proof.
  intros Hle. unfold PyArith.int_gt_float.
  destruct (Prim2SF x) as [s|s| |s m e]; try done.
  - intros H%Z.ltb_lt. apply Z.ltb_lt. lia.
  - intros Hgt%negb_true_iff. apply negb_true_iff.
    destruct (Qle_bool (inject_Z n') (PyFloat.to_Q x)) eqn:Hle'; [|done].
    apply Qle_bool_iff in Hle'.
    assert (Hn : (inject_Z n <= PyFloat.to_Q x)%Q).
    { eapply Qle_trans; [|exact Hle']. by rewrite <- Zle_Qle. }
    apply Qle_bool_iff in Hn. congruence.
Qed.

(** The check against a limit that is a finite non-zero float. *)
Lemma int_gt_float_finite (n : Z) (x : float) s m e (num : Z) (den : positive) :
  Prim2SF x = S754_finite s m e →
  PyFloat.to_Q x = Qmake num den →
  PyArith.int_gt_float n x = (num <? n * Zpos den).
Proof.
  intros Hx Hq. unfold PyArith.int_gt_float. rewrite Hx, Hq.
  unfold Qle_bool. simpl.
  destruct (Z.leb_spec (n * 1) num), (Z.ltb_spec num (n * Zpos den));
    simpl; try done; nia.
Qed.

(** X22: [is_context_full] grows with the estimated length: between two
    stores of the same [max_context_length], the one with the larger
    estimate is full whenever the other is. With the default
    [max_context_length = 4096] a store is full exactly from 3687
    estimated tokens on, and with the 2048 of the chatbot from 1844 on. *)
Theorem is_context_full_spec self self' :
  (max_context_length self' = max_context_length self →
   get_context_length self ≤ get_context_length self' →
   is_context_full self = inr true → is_context_full self' = inr true) ∧
  (max_context_length self = 4096 →
   is_context_full self = inr (3686 <? get_context_length self)) ∧
  (max_context_length self = 2048 →
   is_context_full self = inr (1843 <? get_context_length self)).
Proof.
  unfold is_context_full. split; [|split].
  - intros -> Hle.
    destruct (PyArith.to_float (max_context_length self)) as [e|limit];
      [done|].
    intros [= Hfull]. f_equal. by eapply int_gt_float_mono.
  - intros ->.
    change (PyArith.to_float 4096) with (@inr arith_exn _ 4096%float).
    cbv beta iota zeta. set (x := PrimFloat.mul 4096 0.9).
    rewrite (int_gt_float_finite _ x false 8106479329266893 (-41)
               8106479329266893 2199023255552);
      [|by vm_compute..].
    f_equal.
    destruct (Z.ltb_spec 8106479329266893
                (get_context_length self * 2199023255552)),
      (Z.ltb_spec 3686 (get_context_length self)); try done; lia.
  - intros ->.
    change (PyArith.to_float 2048) with (@inr arith_exn _ 2048%float).
    cbv beta iota zeta. set (x := PrimFloat.mul 2048 0.9).
    rewrite (int_gt_float_finite _ x false 8106479329266893 (-42)
               8106479329266893 4398046511104);
      [|by vm_compute..].
    f_equal.
    destruct (Z.ltb_spec 8106479329266893
                (get_context_length self * 4398046511104)),
      (Z.ltb_spec 1843 (get_context_length self)); try done; lia.
Qed.

End ContextFullFacts.

(** ** Concrete runs of the further properties *)

Lemma store_invariant_witness :
  init 4096 3 40 "t0" = inr demo_store ∧
  total_turns (run demo_store demo_ops) = 4 ∧
  Deque.len (conversation_history (run demo_store demo_ops)) ≤ 3.
Proof.
  split; [reflexivity|].
  destruct (store_invariant 4096 3 40 "t0" demo_store demo_ops eq_refl)
    as ((_ & Hlen) & _ & Htot & _ & _ & Hmax & _).
  split; [exact Htot|]. rewrite Hmax in Hlen. exact Hlen.
Defined.

Lemma summarization_retriggers_witness :
  init 4096 3 2 "t0" = inr eager_new_store ∧ 2 ≤ 3 ∧
  summarization_count (add_turns eager_new_store demo_calls) = 3 ∧
  Z.max 1 2 ≤ Py.len demo_calls ∧
  context_summary (add_turns eager_new_store demo_calls)
  = digest (buffer (add_turns eager_new_store demo_calls)).
Proof.
  assert (Hth : 2 ≤ 3) by lia.
  assert (Hlen : Z.max 1 2 ≤ Py.len demo_calls) by (vm_compute; discriminate).
  destruct (summarization_retriggers 4096 3 2 "t0" eager_new_store demo_calls
              eq_refl Hth) as [Hcount Hsum].
  split; [reflexivity|]. split; [exact Hth|]. split; [exact Hcount|].
  split; [exact Hlen|exact (Hsum Hlen)].
Defined.

Lemma least_relevant_removes_oldest_witness :
  buffer short_first_store
  = mkTurn "user" "ok" ∅ "t1"
    :: [ mkTurn "assistant" "hello" ∅ "t2"; mkTurn "user" "no" ∅ "t3" ] ∧
  fst (prune_context short_first_store "least_relevant")
  = fst (prune_context short_first_store "oldest").
Proof.
  split; [reflexivity|].
  refine (proj1 (least_relevant_removes_oldest short_first_store _ _
                   eq_refl _)).
  repeat constructor; vm_compute; discriminate.
Defined.

Lemma generate_miss_success_witness :
  cache_hit (engine fresh_world) true (cache_key "hello" None None) = None ∧
  echo_model (model (engine fresh_world)) "hello" 512 0.7%float ∅
  = (inr "echo of hello", ()) ∧
  fst (demo_generate "hello" None None true ∅ fresh_world)
  = inr "echo of hello" ∧
  total_requests (inference_stats (engine after_hello)) = 1.
Proof.
  assert (Hmiss : cache_hit (engine fresh_world) true
                    (cache_key "hello" None None) = None) by reflexivity.
  assert (Hcall : echo_model (model (engine fresh_world)) "hello" 512
                    0.7%float ∅ = (inr "echo of hello", ())) by reflexivity.
  destruct (generate_miss_success echo_model quarter_clock fresh_world
              "hello" None None true ∅ "echo of hello" () Hmiss Hcall)
    as (Hres & _ & Hreq & _).
  split; [exact Hmiss|]. split; [exact Hcall|]. split; [exact Hres|].
  exact Hreq.
Defined.

Lemma generate_cache_growth_witness :
  fst (demo_generate "hello" None None true ∅ fresh_world)
  = inr "echo of hello" ∧
  _response_cache (engine after_hello) !! cache_key "hello" None None
  = Some "echo of hello" ∧
  _response_cache
    (engine (snd (demo_generate "hello" None None false ∅ fresh_world)))
  = _response_cache (engine fresh_world).
Proof.
  assert (Hres : fst (demo_generate "hello" None None true ∅ fresh_world)
                 = inr "echo of hello") by (vm_compute; reflexivity).
  destruct (generate_cache_growth echo_model quarter_clock fresh_world
              "hello" None None true ∅) as (_ & _ & _ & _ & Hkey).
  destruct (generate_cache_growth echo_model quarter_clock fresh_world
              "hello" None None false ∅) as (_ & _ & Hoff & _).
  split; [exact Hres|]. split; [exact (Hkey _ Hres eq_refl)|].
  exact (Hoff eq_refl).
Defined.


Lemma batch_generate_output_witness :
  batch_generate echo_model quarter_clock demo_batch None None ∅ fresh_world
  = (inr [ "echo of a"; "echo of b"; "echo of a" ], after_batch) ∧
  stdout after_batch
  = [ "Processing batch of 3 prompts..."; "Batch processing complete!" ].
Proof.
  assert (Hrun : batch_generate echo_model quarter_clock demo_batch None None
                   ∅ fresh_world
                 = (inr [ "echo of a"; "echo of b"; "echo of a" ],
                    after_batch)) by (vm_compute; reflexivity).
  split; [exact Hrun|].
  exact (batch_generate_output echo_model quarter_clock fresh_world
           demo_batch None None ∅ _ after_batch Hrun).
Defined.

Lemma reset_statistics_keeps_cache_witness :
  _response_cache (engine after_hello) !! cache_key "hello" None None
  = Some "echo of hello" ∧
  total_requests (inference_stats (engine after_hello)) = 1 ∧
  total_requests
    (inference_stats
       (engine (snd (reset_statistics (Exn:=string) after_hello)))) = 0 ∧
  fst (demo_generate "hello" None None true ∅
         (snd (reset_statistics (Exn:=string) after_hello)))
  = inr "echo of hello".
Proof.
  assert (Hhit : _response_cache (engine after_hello)
                 !! cache_key "hello" None None = Some "echo of hello")
    by (vm_compute; reflexivity).
  destruct (reset_statistics_keeps_cache (Exn:=string) echo_model
              quarter_clock after_hello "hello" None None ∅ "echo of hello"
              Hhit) as (_ & _ & _ & Hrun & Hzero).
  split; [exact Hhit|]. split; [vm_compute; reflexivity|].
  split; [exact Hzero|]. by rewrite Hrun.
Defined.

Lemma generate_with_alternatives_spec_witness :
  fst (generate_with_alternatives echo_model quarter_clock "p" 3 None ∅
         fresh_world)
  = inr [ "echo of p"; "echo of p"; "echo of p" ] ∧
  total_requests
    (inference_stats
       (engine (snd (generate_with_alternatives echo_model quarter_clock "p"
                       3 None ∅ fresh_world))))
  = 3 ∧
  call_temperature
  <$> calls (snd (generate_with_alternatives echo_model quarter_clock "p" 3
                    None ∅ fresh_world))
  = [ 0.7; 0.7999999999999999; 0.8999999999999999 ]%float.
Proof.
  assert (Hres : fst (generate_with_alternatives echo_model quarter_clock "p"
                        3 None ∅ fresh_world)
                 = inr [ "echo of p"; "echo of p"; "echo of p" ])
    by (vm_compute; reflexivity).
  destruct (generate_with_alternatives_spec echo_model quarter_clock
              fresh_world "p" 3 None ∅) as [_ Hspec].
  destruct (Hspec _ Hres) as (_ & Htot & Hcalls).
  split; [exact Hres|]. split; [exact Htot|].
  rewrite Hcalls. vm_compute. reflexivity.
Defined.

Lemma interactive_generate_chain_witness :
  interactive_generate echo_model quarter_clock demo_wall "p" 2 None None
    true ∅ fresh_world
  = (inr [ InteractiveTurn.mk 1 "p" "echo of p" "T2";
           InteractiveTurn.mk 2 "p echo of p" "echo of p echo of p" "T5" ],
     after_interactive) ∧
  chained 0 "p"
    [ InteractiveTurn.mk 1 "p" "echo of p" "T2";
      InteractiveTurn.mk 2 "p echo of p" "echo of p echo of p" "T5" ].
Proof.
  assert (Hrun : interactive_generate echo_model quarter_clock demo_wall "p"
                   2 None None true ∅ fresh_world
                 = (inr [ InteractiveTurn.mk 1 "p" "echo of p" "T2";
                          InteractiveTurn.mk 2 "p echo of p"
                            "echo of p echo of p" "T5" ],
                    after_interactive)) by (vm_compute; reflexivity).
  destruct (interactive_generate_chain echo_model quarter_clock demo_wall
              fresh_world "p" 2 None None true ∅ _ after_interactive Hrun)
    as (_ & Hchain & _).
  split; [exact Hrun|exact Hchain].
Defined.

Lemma engine_statistics_guarded_witness :
  total_requests (inference_stats (engine fresh_world)) ≤ 0 ∧
  engine_statistics (engine fresh_world)
  = inr (EngineStatistics.mk 0 0 0 0 (inl 0)) ∧
  engine_statistics (engine after_hello)
  = inr (EngineStatistics.mk 1 3 0.25 1 (inr 3%float)).
Proof.
  assert (Hzero : total_requests (inference_stats (engine fresh_world)) ≤ 0)
    by (vm_compute; discriminate).
  destruct (engine_statistics_guarded (engine fresh_world))
    as (_ & Hguard & _).
  split; [exact Hzero|]. split; [exact (Hguard Hzero)|].
  vm_compute. reflexivity.
Defined.

Lemma add_system_message_last_witness :
  (0 < maxlen (conversation_history full_store))%nat ∧
  get_last_turn (fst (add_system_message (λ s, Z.of_nat (String.length s))
                        full_store "be brief" "t4")) (Some "system")
  = Some (mkTurn "system" "be brief" {[ "type" := 18 ]} "t4").
Proof.
  assert (Hcap : (0 < maxlen (conversation_history full_store))%nat)
    by (vm_compute; lia).
  split; [exact Hcap|].
  destruct (add_system_message_last (λ s, Z.of_nat (String.length s))
              full_store "be brief" "t4" Hcap) as (_ & Hlast & _).
  exact Hlast.
Defined.

Lemma get_statistics_spec_witness :
  max_context_length zero_length_store = 0 ∧
  get_statistics zero_length_store = inl ZeroDivisionError ∧
  get_statistics full_store
  = inr (Statistics.mk 3 3 2 0.048828125 0 false) ∧
  Statistics.current_turns (Statistics.mk 3 3 2 0.048828125 0 false)
  = Py.len (buffer full_store).
Proof.
  assert (Hrun : get_statistics full_store
                 = inr (Statistics.mk 3 3 2 0.048828125 0 false))
    by (vm_compute; reflexivity).
  split; [reflexivity|]. split.
  - exact (proj2 (proj1 (get_statistics_spec zero_length_store)) eq_refl).
  - split; [exact Hrun|].
    destruct (proj2 (get_statistics_spec full_store) _ Hrun)
      as (_ & Hcur & _).
    exact Hcur.
Defined.

Lemma chat_spec_witness :
  fst (chat echo_model quarter_clock demo_bot "hi there" "t2" "t3")
  = inr ("echo of " +:+ get_context
                          (fst (add_turn (context_manager demo_bot) "user"
                                  "hi there" None "t2")) (Some 10) true
         +:+ Py.nl +:+ "assistant:") ∧
  total_turns
    (context_manager
       (snd (chat echo_model quarter_clock demo_bot "hi there" "t2" "t3")))
  = 3 ∧
  fst (chat failing_model quarter_clock demo_bot "hi there" "t2" "t3")
  = inl "model failure" ∧
  (role <$> buffer
             (context_manager
                (snd (chat failing_model quarter_clock demo_bot "hi there"
                        "t2" "t3"))))
  = [ "system"; "user" ].
Proof.
  assert (Hok : fst (chat echo_model quarter_clock demo_bot "hi there" "t2"
                       "t3")
                = inr ("echo of " +:+ get_context
                                        (fst (add_turn
                                                (context_manager demo_bot)
                                                "user" "hi there" None "t2"))
                                        (Some 10) true
                       +:+ Py.nl +:+ "assistant:"))
    by (vm_compute; reflexivity).
  assert (Hko : fst (chat failing_model quarter_clock demo_bot "hi there"
                       "t2" "t3") = inl "model failure")
    by (vm_compute; reflexivity).
  destruct (chat_spec echo_model quarter_clock demo_bot "hi there" "t2" "t3")
    as (_ & Hsuccess & _).
  destruct (Hsuccess _ Hok) as (_ & _ & Htot & _).
  destruct (chat_spec failing_model quarter_clock demo_bot "hi there" "t2"
              "t3") as (_ & _ & Hfailure).
  destruct (Hfailure _ Hko) as (Hstore & _).
  split; [exact Hok|]. split; [exact Htot|]. split; [exact Hko|].
  rewrite Hstore. vm_compute. reflexivity.
Defined.

Lemma reset_conversation_spec_witness :
  (0 < maxlen (conversation_history (context_manager demo_bot)))%nat ∧
  role <$> buffer (context_manager (reset_conversation (λ s, s) demo_bot "t9"))
  = [ "system" ] ∧
  total_turns (context_manager (reset_conversation (λ s, s) demo_bot "t9"))
  = 2.
Proof.
  assert (Hcap : (0 < maxlen (conversation_history
                                (context_manager demo_bot)))%nat)
    by (vm_compute; lia).
  destruct (reset_conversation_spec (λ s, s) demo_bot "t9" Hcap)
    as (Hbuf & Htot & _).
  split; [exact Hcap|]. split; [by rewrite Hbuf|exact Htot].
Defined.

Lemma cache_key_separates_witness :
  cache_key "a_1" (Some 2) (Some 0.5%float) = "a_1_2_0.5" ∧
  cache_key "a_1" (Some 2) (Some 0.5%float)
  = cache_key ("a" +:+ "_1") (Some (1 + 1)) (Some (PrimFloat.div 1 2)) ∧
  "a_1" = "a" +:+ "_1" ∧ Some 2 = Some (1 + 1) ∧
  fmt_float (Some 0.5%float) = fmt_float (Some (PrimFloat.div 1 2)).
Proof.
  assert (Hkey : cache_key "a_1" (Some 2) (Some 0.5%float)
                 = cache_key ("a" +:+ "_1") (Some (1 + 1))
                     (Some (PrimFloat.div 1 2)))
    by (vm_compute; reflexivity).
  split; [vm_compute; reflexivity|]. split; [exact Hkey|].
  exact (cache_key_separates _ _ _ _ _ _ Hkey).
Defined.

Lemma is_context_full_spec_witness :
  max_context_length full_store = 4096 ∧
  is_context_full full_store = inr false ∧
  max_context_length (context_manager demo_bot) = 2048 ∧
  is_context_full (context_manager demo_bot) = inr false.
Proof.
  destruct (is_context_full_spec full_store full_store) as (_ & H4096 & _).
  destruct (is_context_full_spec (context_manager demo_bot)
              (context_manager demo_bot)) as (_ & _ & H2048).
  split; [reflexivity|]. split; [exact (H4096 eq_refl)|].
  split; [reflexivity|]. exact (H2048 eq_refl).
Defined.
